(** * Tevis appointment bot: a shallow embedding of [bot.py]

    The bot is one Python module.  Its pure parts (string tests, integer
    parsing, the minimum of a set, formatting) are Rocq functions; its
    effects (HTTP calls to the Telegram Bot API, the headless browser, the
    clock, the state file) go through a small state-and-exception monad
    over an abstract runtime, so that every theorem holds whatever the
    network, the web site and the file system answer.

    Left out: the [print] calls and the [time.strftime] that only feeds
    them.  String literals are the code points of the source file as it
    is stored. *)

From Stdlib Require Import ZArith NArith String Ascii List Lia Decimal.
From Stdlib Require Import DecimalPos DecimalZ.
From stdpp Require Import base option list gmap sets fin_sets.

#[local] Open Scope Z_scope.

(** ** Python strings

    A Python [str] is a sequence of Unicode code points. *)

Abbreviation pystr := (list N).

(** A literal of the source whose characters are all ASCII. *)
Definition u (s : string) : pystr :=
  map N_of_ascii (list_ascii_of_string s).

Module Unicode.

(** General category Nd: each range is one or more runs of the ten
    digits ZERO..NINE of a script (Unicode 14). *)
Definition decimal_ranges : list (N * N) :=
  [ (48, 57); (1632, 1641); (1776, 1785); (1984, 1993); (2406, 2415);
    (2534, 2543); (2662, 2671); (2790, 2799); (2918, 2927); (3046, 3055);
    (3174, 3183); (3302, 3311); (3430, 3439); (3558, 3567); (3664, 3673);
    (3792, 3801); (3872, 3881); (4160, 4169); (4240, 4249); (6112, 6121);
    (6160, 6169); (6470, 6479); (6608, 6617); (6784, 6793); (6800, 6809);
    (6992, 7001); (7088, 7097); (7232, 7241); (7248, 7257); (42528, 42537);
    (43216, 43225); (43264, 43273); (43472, 43481); (43504, 43513);
    (43600, 43609); (44016, 44025); (65296, 65305); (66720, 66729);
    (68912, 68921); (69734, 69743); (69872, 69881); (69942, 69951);
    (70096, 70105); (70384, 70393); (70736, 70745); (70864, 70873);
    (71248, 71257); (71360, 71369); (71472, 71481); (71904, 71913);
    (72016, 72025); (72784, 72793); (73040, 73049); (73120, 73129);
    (92768, 92777); (92864, 92873); (93008, 93017); (120782, 120831);
    (123200, 123209); (123632, 123641); (125264, 125273);
    (130032, 130041) ]%N.

(** Numeric_Type=Digit without being decimal: superscripts, subscripts,
    circled and parenthesised digits and the like. *)
Definition other_digit_ranges : list (N * N) :=
  [ (0xb2, 0xb3); (0xb9, 0xb9); (0x1369, 0x1371); (0x19da, 0x19da);
    (0x2070, 0x2070); (0x2074, 0x2079); (0x2080, 0x2089);
    (0x2460, 0x2468); (0x2474, 0x247c); (0x2488, 0x2490);
    (0x24ea, 0x24ea); (0x24f5, 0x24fd); (0x24ff, 0x24ff);
    (0x2776, 0x277e); (0x2780, 0x2788); (0x278a, 0x2792);
    (0x10a40, 0x10a43); (0x10e60, 0x10e68); (0x11052, 0x1105a);
    (0x1f100, 0x1f10a) ]%N.

(** The characters [str.isspace] accepts, which [str.strip] removes. *)
Definition space_ranges : list (N * N) :=
  [ (0x9, 0xd); (0x1c, 0x20); (0x85, 0x85); (0xa0, 0xa0);
    (0x1680, 0x1680); (0x2000, 0x200a); (0x2028, 0x2029);
    (0x202f, 0x202f); (0x205f, 0x205f); (0x3000, 0x3000) ]%N.

Definition in_range (c : N) (r : N * N) : bool :=
  ((fst r <=? c) && (c <=? snd r))%N.

Definition in_ranges (c : N) (rs : list (N * N)) : bool :=
  existsb (in_range c) rs.

(** [unicodedata.decimal]: the value of a decimal digit. *)
Fixpoint decimal_in (c : N) (rs : list (N * N)) : option Z :=
  match rs with
  | [] => None
  | r :: rs' =>
      if in_range c r then Some (Z.of_N ((c - fst r) mod 10))
      else decimal_in c rs'
  end.

Definition decimal (c : N) : option Z := decimal_in c decimal_ranges.

Definition is_decimal (c : N) : bool := in_ranges c decimal_ranges.

Definition is_digit (c : N) : bool :=
  is_decimal c || in_ranges c other_digit_ranges.

Definition is_space (c : N) : bool := in_ranges c space_ranges.

End Unicode.

(** [s.isdigit()]: true when [s] is not empty and all its characters are
    digits. *)
Definition isdigit (s : pystr) : bool :=
  match s with
  | [] => false
  | _ => forallb Unicode.is_digit s
  end.

(** [s.strip()]: leading and trailing white space removed. *)
Fixpoint lstrip (s : pystr) : pystr :=
  match s with
  | c :: s' => if Unicode.is_space c then lstrip s' else s
  | [] => []
  end.

Definition strip (s : pystr) : pystr := rev (lstrip (rev (lstrip s))).

(** ** Exceptions and results

    Every exception the program meets is a subclass of [Exception]; the
    handlers of the source are all [except Exception], so the class only
    matters for reading the traces. *)
Inductive exn : Type :=
  | RuntimeError (msg : pystr)
  | ValueError
  | TypeError
  | LibraryError (what : pystr).   (* requests, playwright, json, OS, zoneinfo *)

Inductive result (A : Type) : Type :=
  | Ret (a : A)
  | Raise (e : exn).
Arguments Ret {A} a.
Arguments Raise {A} e.

(** ** Integers and their text *)

(** CPython refuses to convert more than this many digits between [str]
    and [int] ([sys.int_info.default_max_str_digits]). *)
Definition int_max_str_digits : nat := 4300.

(** The base-10 value of a string of decimal digits, most significant
    first; [None] at the first character that is not a decimal digit. *)
Fixpoint decimal_value (acc : Z) (s : pystr) : option Z :=
  match s with
  | [] => Some acc
  | c :: s' =>
      match Unicode.decimal c with
      | Some d => decimal_value (10 * acc + d) s'
      | None => None
      end
  end.

(** [int(val)] for a [val] that passed [isdigit()], the only strings the
    source parses: such a string has no sign, white space or underscore,
    so the conversion succeeds exactly when every character is a decimal
    digit and the string is within the length limit; otherwise it raises
    [ValueError]. *)
Definition py_int (val : pystr) : result Z :=
  if (int_max_str_digits <? length val)%nat then Raise ValueError
  else match val with
       | [] => Raise ValueError
       | _ => match decimal_value 0 val with
              | Some n => Ret n
              | None => Raise ValueError
              end
       end.

Fixpoint uint_digits (d : Decimal.uint) : pystr :=
  match d with
  | Nil => []
  | D0 d' => 48%N :: uint_digits d'
  | D1 d' => 49%N :: uint_digits d'
  | D2 d' => 50%N :: uint_digits d'
  | D3 d' => 51%N :: uint_digits d'
  | D4 d' => 52%N :: uint_digits d'
  | D5 d' => 53%N :: uint_digits d'
  | D6 d' => 54%N :: uint_digits d'
  | D7 d' => 55%N :: uint_digits d'
  | D8 d' => 56%N :: uint_digits d'
  | D9 d' => 57%N :: uint_digits d'
  end.

(** [str(n)] of an integer.  The integers of this program all come out of
    [int()] or the JSON decoder, hence are within the length limit, and
    the conversion back cannot raise. *)
Definition str_of_int (n : Z) : pystr :=
  match Z.to_int n with
  | Decimal.Pos d => uint_digits d
  | Decimal.Neg d => 45%N :: uint_digits d
  end.

(** ** Values of the state record

    [state] is the dict that [json.load] returns and [json.dump] writes.
    The program stores integers and strings in it; [VNone] is JSON null,
    and also what [state.get(key)] yields for a key that is absent. *)
Inductive value : Type :=
  | VNone
  | VInt (n : Z)
  | VStr (s : pystr).

#[global] Instance value_eq_dec : EqDecision value.
Proof. solve_decision. Defined.

(** [str(v)]. *)
Definition py_str (v : value) : pystr :=
  match v with
  | VNone => u "None"
  | VInt n => str_of_int n
  | VStr s => s
  end.

(** [a == b] on these values is structural: values of different types are
    never equal. *)
Definition py_eq (a b : value) : bool := bool_decide (a = b).

(** [state.get(key)] and [state.get(key, default)]. *)
Definition dict_get (state : gmap pystr value) (key : pystr) : value :=
  default VNone (state !! key).

Definition dict_get_default (state : gmap pystr value) (key : pystr)
    (dflt : value) : value :=
  default dflt (state !! key).

Definition K_LAST_PING_DATE : pystr := u "last_ping_date".
Definition K_LAST_UPDATE_ID : pystr := u "last_update_id".
Definition K_LAST_NOTIFIED_EARLIEST : pystr := u "last_notified_earliest".

(** ** Configuration (module-level constants of the source) *)

Definition TARGET_URL : pystr := u "https://tevis.ekom21.de/fra/select2?md=35".
Definition STATE_FILE : pystr := u "state.json".
Definition HEARTBEAT_WINDOW_MINUTES : Z := 10.

(** The constants read from the environment when the module is loaded. *)
Record Config : Type := {
  MY_CURRENT_APPOINTMENT : Z;
  BOT_TOKEN : pystr;
  DEFAULT_CHAT_ID : pystr;
  TIMEZONE : pystr;
  HEARTBEAT_HOUR : Z
}.

(** ** What the outside world exchanges with the program *)

(** An inbound Telegram message and update, with the fields the source
    reads.  [upd_update_id] and [msg_text] may be absent, as the source
    allows with [.get]; [msg_chat_id] is [msg["chat"]["id"]], which the
    Bot API always sends. *)
Record message : Type := {
  msg_chat_id : Z;
  msg_text : option pystr
}.

Record update : Type := {
  upd_update_id : option Z;
  upd_message : option message
}.

(** The decoded body of an API answer: [body_result] is its ["result"]
    entry when it has one. *)
Record api_body : Type := { body_result : option (list update) }.

(** The [params] dict of the two API methods the source calls. *)
Inductive params : Type :=
  | SendMessage (chat_id text : pystr) (disable_web_page_preview : bool)
  | GetUpdates (offset timeout : Z).

(** A [requests.Response]: [r.ok], [r.status_code], [r.text] and what
    [r.json()] does. *)
Record response : Type := {
  r_ok : bool;
  r_status_code : Z;
  r_text : pystr;
  r_json : result api_body
}.

(** An aware [datetime], to the minute. *)
Record datetime : Type := {
  dt_year : Z;
  dt_month : Z;
  dt_day : Z;
  dt_hour : Z;
  dt_minute : Z;
  dt_tzname : pystr
}.

(** [%02d], [%04d] of a non-negative number. *)
Definition zfill (width : nat) (s : pystr) : pystr :=
  replicate (width - length s)%nat 48%N ++ s.

(** [now.date().isoformat()] *)
Definition isoformat (now : datetime) : pystr :=
  zfill 4 (str_of_int (dt_year now)) ++ u "-" ++
  zfill 2 (str_of_int (dt_month now)) ++ u "-" ++
  zfill 2 (str_of_int (dt_day now)).

(** [now.strftime('%Y-%m-%d %H:%M %Z')] *)
Definition strftime (now : datetime) : pystr :=
  isoformat now ++ u " " ++
  zfill 2 (str_of_int (dt_hour now)) ++ u ":" ++
  zfill 2 (str_of_int (dt_minute now)) ++ u " " ++ dt_tzname now.

(** ** The runtime

    Everything the program asks of its libraries.  Each operation takes
    the state of the outside world and returns an outcome and the next
    state; nothing is assumed about either.  The browser and its page are
    part of that state: the source holds one of each at a time. *)
Class Runtime (W : Type) : Type := {
  (** [str.lower]: the Unicode case mapping. *)
  str_lower : pystr -> pystr;
  (** [requests.post(url, data=params, timeout=25)] *)
  requests_post : pystr -> params -> W -> result response * W;
  (** [datetime.now(ZoneInfo(tz))] *)
  datetime_now : pystr -> W -> result datetime * W;
  (** [json.load(open(path, "r"))] *)
  open_json_load : pystr -> W -> result (gmap pystr value) * W;
  (** [json.dump(state, open(path, "w"))] *)
  open_json_dump : pystr -> gmap pystr value -> W -> result unit * W;
  (** entering and leaving [with sync_playwright() as p] *)
  sync_playwright_enter : W -> result unit * W;
  sync_playwright_exit : W -> result unit * W;
  (** [p.chromium.launch(headless=True)], [browser.new_page()],
      [browser.close()] *)
  chromium_launch : W -> result unit * W;
  browser_new_page : W -> result unit * W;
  browser_close : W -> result unit * W;
  (** [page.goto(url, wait_until="domcontentloaded")] *)
  page_goto : pystr -> W -> result unit * W;
  page_is_visible : pystr -> W -> result bool * W;
  page_click : pystr -> W -> result unit * W;
  (** [page.wait_for_selector(selector, timeout=ms)] *)
  page_wait_for_selector : pystr -> Z -> W -> result unit * W;
  (** [page.locator(selector).all()]: the matching elements *)
  page_locator_all : pystr -> W -> result (list nat) * W;
  (** [inp.get_attribute(name)] *)
  locator_get_attribute : nat -> pystr -> W -> result (option pystr) * W
}.

(** One HTTP request made to the Bot API and what came back. *)
Record post : Type := Post {
  post_url : pystr;
  post_params : params;
  post_outcome : result response
}.

(** The system: the outside world and the record of the requests made so
    far, newest first. *)
Record sys (W : Type) : Type := Sys {
  world : W;
  http_log : list post
}.
Arguments Sys {W} world http_log.
Arguments world {W} s.
Arguments http_log {W} s.

(** ** The monad: state that survives exceptions *)

Definition M (W A : Type) : Type := sys W -> result A * sys W.

Definition ret {W A} (a : A) : M W A := fun s => (Ret a, s).

Definition raise {W A} (e : exn) : M W A := fun s => (Raise e, s).

Definition bind {W A B} (m : M W A) (k : A -> M W B) : M W B :=
  fun s =>
    match m s with
    | (Ret a, s') => k a s'
    | (Raise e, s') => (Raise e, s')
    end.

(** A pure computation that may raise. *)
Definition lift {W A} (r : result A) : M W A := fun s => (r, s).

(** An operation of the runtime. *)
Definition perform {W A} (op : W -> result A * W) : M W A :=
  fun s => let (r, w) := op (world s) in (r, Sys w (http_log s)).

(** [try: m  except Exception as e: h e] *)
Definition try_except {W A} (m : M W A) (h : exn -> M W A) : M W A :=
  fun s =>
    match m s with
    | (Ret a, s') => (Ret a, s')
    | (Raise e, s') => h e s'
    end.

(** [try: m  finally: f]: [f] runs on every way out of [m]; when [f]
    raises, its exception replaces the outcome of [m]. *)
Definition try_finally {W A} (m : M W A) (f : M W unit) : M W A :=
  fun s =>
    let (r, s') := m s in
    match f s' with
    | (Ret _, s'') => (r, s'')
    | (Raise e, s'') => (Raise e, s'')
    end.

Notation "'let*' x ':=' m 'in' k" := (bind m (fun x => k))
  (at level 10, x name, m at level 100, k at level 200).
Notation "'do' m 'in' k" := (bind m (fun _ => k))
  (at level 10, m at level 100, k at level 200).

(** [min(s)] of a set of integers; [ValueError] when it is empty. *)
Definition py_min (s : gset Z) : result Z :=
  match elements s with
  | [] => Raise ValueError
  | x :: l => Ret (foldr Z.min x l)
  end.

(** The integer operand of [last_update_id + 1]: anything that is not an
    integer makes the addition raise [TypeError]. *)
Definition int_operand (v : value) : result Z :=
  match v with
  | VInt n => Ret n
  | _ => Raise TypeError
  end.

Definition nl : pystr := [10%N].

Section Bot.

Context {W : Type} `{Runtime W}.
Variable cfg : Config.

(** *** Telegram *)

Definition api_url (method : pystr) : pystr :=
  u "https://api.telegram.org/bot" ++ BOT_TOKEN cfg ++ u "/" ++ method.

Definition tg_api (method : pystr) (p : params) : M W api_body :=
  match BOT_TOKEN cfg with
  | [] => raise (RuntimeError (u "Missing TELEGRAM_BOT_TOKEN"))
  | _ =>
      let url := api_url method in
      fun s =>
        let (r, w) := requests_post url p (world s) in
        let s' := Sys w (Post url p r :: http_log s) in
        match r with
        | Raise e => (Raise e, s')
        | Ret resp =>
            if negb (r_ok resp) then
              (Raise (RuntimeError (u "Telegram API error "
                        ++ str_of_int (r_status_code resp) ++ u ": "
                        ++ r_text resp)), s')
            else (r_json resp, s')
        end
  end.

Definition send_telegram (chat_id text : pystr) : M W unit :=
  match chat_id with
  | [] => ret tt
  | _ =>
      try_except
        (do tg_api (u "sendMessage") (SendMessage chat_id text true) in
         ret tt)
        (fun e => ret tt)
  end.

(** *** State store *)

Definition load_state : M W (gmap pystr value) :=
  try_except (perform (open_json_load STATE_FILE)) (fun _ => ret ∅).

Definition save_state (state : gmap pystr value) : M W unit :=
  perform (open_json_dump STATE_FILE state).

(** *** Scraper *)

(** The loop over [date_inputs], adding to [found_dates]. *)
Fixpoint collect_dates (date_inputs : list nat) (found_dates : gset Z)
    : M W (gset Z) :=
  match date_inputs with
  | [] => ret found_dates
  | inp :: rest =>
      let* val := perform (locator_get_attribute inp (u "value")) in
      let* found_dates :=
        match val with
        | Some (c :: v) =>
            if isdigit (c :: v) then
              let* n := lift (py_int (c :: v)) in
              ret ({[ n ]} ∪ found_dates)
            else ret found_dates
        | _ => ret found_dates
        end in
      collect_dates rest found_dates
  end.

(** The steps up to the second "Weiter": lines 68 to 81. *)
Definition open_suggestions : M W unit :=
  do perform (page_goto TARGET_URL) in
  let* banner := perform (page_is_visible (u "#cookie_msg_btn_no")) in
  do (if banner : bool then perform (page_click (u "#cookie_msg_btn_no"))
      else ret tt) in
  do perform (page_wait_for_selector (u "#inputBox-5635") 15000) in
  do perform (page_click (u "#button-plus-5635")) in
  do perform (page_click (u "#WeiterButton")) in
  do perform (page_wait_for_selector (u "#TevisDialog") 15000) in
  do perform (page_click (u "#TevisDialog .modal-footer .btn-ok")) in
  do perform (page_wait_for_selector (u "div.suggest_location_single") 15000) in
  perform (page_click (u "#WeiterButton")).

(** Lines 89 to 103: read the dates off the suggestion forms. *)
Definition read_earliest : M W (option Z) :=
  let* date_inputs :=
    perform (page_locator_all (u "form.suggestion_form input[name='date']")) in
  let* found_dates := collect_dates date_inputs ∅ in
  if bool_decide (found_dates = ∅) then ret None
  else
    let* earliest := lift (py_min found_dates) in
    ret (Some earliest).

(** The body of the outer [try], lines 65 to 103.  The inner [try]
    returns [None] from the function when the suggestion form does not
    show up. *)
Definition navigate : M W (option Z) :=
  do open_suggestions in
  let* slots :=
    try_except
      (do perform (page_wait_for_selector (u ".suggestion_form") 7000) in
       ret true)
      (fun _ => ret false) in
  if slots : bool then read_earliest else ret None.

Definition check_for_appointments : M W (option Z) :=
  do perform sync_playwright_enter in
  try_finally
    (do perform chromium_launch in
     do perform browser_new_page in
     try_finally
       (try_except navigate (fun e => ret None))
       (perform browser_close))
    (perform sync_playwright_exit).

(** *** Heartbeat *)

Definition heartbeat_text (now : datetime) : pystr :=
  [0xf0; 0x178; 0xa4; 0x2013]%N ++ u " Still alive "
  ++ [0xe2; 0x153; 0x2026]%N ++ u " (" ++ strftime now ++ u ")".

Definition maybe_send_daily_heartbeat (state : gmap pystr value)
    : M W (gmap pystr value) :=
  match DEFAULT_CHAT_ID cfg with
  | [] => ret state
  | _ =>
      let* now := perform (datetime_now (TIMEZONE cfg)) in
      let today := isoformat now in
      let last_ping_date := dict_get state K_LAST_PING_DATE in
      if py_eq last_ping_date (VStr today) then ret state
      else if (dt_hour now =? HEARTBEAT_HOUR cfg)
              && (dt_minute now <? HEARTBEAT_WINDOW_MINUTES) then
        do send_telegram (DEFAULT_CHAT_ID cfg) (heartbeat_text now) in
        ret (<[K_LAST_PING_DATE := VStr today]> state)
      else ret state
  end.

(** *** Command processor *)

Definition start_text : pystr :=
  u "Hi! Send /check to fetch the latest appointment I can see.".

Definition no_slots_text : pystr :=
  u "I couldn't see any slots right now (or the page didn't load). Try again later.".

Definition check_text (earliest : Z) : pystr :=
  let note :=
    if earliest <? MY_CURRENT_APPOINTMENT cfg
    then [0xe2; 0x153; 0x2026]%N ++ u " earlier than your current appointment!"
    else u "not earlier than your current appointment." in
  [0xf0; 0x178; 0x2014; 0x201c]%N ++ u " Latest check result:" ++ nl
  ++ u "Earliest: " ++ str_of_int earliest ++ nl
  ++ u "Current:  " ++ str_of_int (MY_CURRENT_APPOINTMENT cfg) ++ nl
  ++ u "Result:   " ++ note ++ nl
  ++ u "Page: " ++ TARGET_URL.

(** The body of the loop after the update id is tracked: lines 154 to
    180. *)
Definition handle_update (upd : update) : M W unit :=
  match upd_message upd with
  | None => ret tt
  | Some msg =>
      let chat_id := str_of_int (msg_chat_id msg) in
      let text := strip (default [] (msg_text msg)) in
      match text with
      | [] => ret tt
      | _ =>
          if bool_decide (str_lower text ∈ [u "/start"; u "start"]) then
            send_telegram chat_id start_text
          else if bool_decide (str_lower text
                     ∈ [u "/check"; u "check"; u "/status"; u "status"]) then
            let* earliest := check_for_appointments in
            match earliest with
            | None => send_telegram chat_id no_slots_text
            | Some e => send_telegram chat_id (check_text e)
            end
          else ret tt
      end
  end.

(** The [for u in updates] loop, threading [max_update_id]. *)
Fixpoint handle_updates (updates : list update) (max_update_id : Z)
    : M W Z :=
  match updates with
  | [] => ret max_update_id
  | upd :: rest =>
      let max_update_id :=
        Z.max max_update_id (default max_update_id (upd_update_id upd)) in
      do handle_update upd in
      handle_updates rest max_update_id
  end.

(** The [try] of lines 136 to 144: the offset is computed inside it, so
    a stored id that is not an integer fails there too. *)
Definition poll_updates (last_update_id : value) : M W (option (Z * api_body)) :=
  try_except
    (let* n := lift (int_operand last_update_id) in
     let* resp := tg_api (u "getUpdates") (GetUpdates (n + 1) 0) in
     ret (Some (n, resp)))
    (fun e => ret None).

Definition process_incoming_commands (state : gmap pystr value)
    : M W (gmap pystr value) :=
  let last_update_id := dict_get_default state K_LAST_UPDATE_ID (VInt 0) in
  let* polled := poll_updates last_update_id in
  match polled with
  | None => ret state
  | Some (last_update_id, resp) =>
      match default [] (body_result resp) with
      | [] => ret state
      | updates =>
          let* max_update_id := handle_updates updates last_update_id in
          ret (<[K_LAST_UPDATE_ID := VInt max_update_id]> state)
      end
  end.

(** *** Orchestrator *)

Definition alert_text (earliest : Z) : pystr :=
  [0xe2; 0x153; 0x2026]%N ++ u " Earlier appointment found!" ++ nl
  ++ u "Earliest: " ++ str_of_int earliest ++ nl
  ++ u "Current:  " ++ str_of_int (MY_CURRENT_APPOINTMENT cfg) ++ nl
  ++ TARGET_URL.

(** Step 3 of [main], lines 199 to 211. *)
Definition scheduled_alert (state : gmap pystr value)
    : M W (gmap pystr value) :=
  let* earliest := check_for_appointments in
  match earliest with
  | Some earliest =>
      if earliest <? MY_CURRENT_APPOINTMENT cfg then
        let last_notified := dict_get state K_LAST_NOTIFIED_EARLIEST in
        if negb (bool_decide (str_of_int earliest = py_str last_notified)) then
          do (match DEFAULT_CHAT_ID cfg with
              | [] => ret tt
              | _ => send_telegram (DEFAULT_CHAT_ID cfg) (alert_text earliest)
              end) in
          ret (<[K_LAST_NOTIFIED_EARLIEST := VInt earliest]> state)
        else ret state
      else ret state
  | None => ret state
  end.

Definition main : M W unit :=
  match BOT_TOKEN cfg with
  | [] => raise (RuntimeError (u "Missing TELEGRAM_BOT_TOKEN"))
  | _ =>
      let* state := load_state in
      let* state := process_incoming_commands state in
      let* state := maybe_send_daily_heartbeat state in
      let* state := scheduled_alert state in
      save_state state
  end.

End Bot.

(** ** A scripted runtime, to run the program on concrete worlds *)

Module Fake.

Record t : Type := {
  posts : list (result response);    (* outcomes of the next HTTP posts *)
  clock : result datetime;
  file : result (gmap pystr value);  (* what loading the state file gives *)
  disk_ok : bool;
  saved : option (gmap pystr value); (* what was last written *)
  launch_ok : bool;
  close_ok : bool;
  banner : bool;
  missing : list pystr;              (* selectors that never show up *)
  dates : list (option pystr)        (* value attribute of each date input *)
}.

Definition timeout : exn := LibraryError (u "TimeoutError").

Definition when {A} (ok : bool) (a : A) (w : t) : result A * t :=
  if ok then (Ret a, w) else (Raise timeout, w).

Definition present (selector : pystr) (w : t) : bool :=
  negb (bool_decide (selector ∈ missing w)).

Definition lower_ascii (s : pystr) : pystr :=
  map (fun c => if ((65 <=? c) && (c <=? 90))%N then (c + 32)%N else c) s.

Definition post_next (w : t) : result response * t :=
  match posts w with
  | [] => (Raise (LibraryError (u "ConnectionError")), w)
  | r :: rest =>
      (r, {| posts := rest; clock := clock w; file := file w;
             disk_ok := disk_ok w; saved := saved w;
             launch_ok := launch_ok w; close_ok := close_ok w;
             banner := banner w; missing := missing w; dates := dates w |})
  end.

Definition dump (state : gmap pystr value) (w : t) : result unit * t :=
  if disk_ok w then
    (Ret tt, {| posts := posts w; clock := clock w; file := Ret state;
                disk_ok := disk_ok w; saved := Some state;
                launch_ok := launch_ok w; close_ok := close_ok w;
                banner := banner w; missing := missing w; dates := dates w |})
  else (Raise (LibraryError (u "OSError")), w).

#[global] Instance runtime : Runtime t := {|
  str_lower := lower_ascii;
  requests_post := fun _ _ => post_next;
  datetime_now := fun _ w => (clock w, w);
  open_json_load := fun _ w => (file w, w);
  open_json_dump := fun _ => dump;
  sync_playwright_enter := fun w => (Ret tt, w);
  sync_playwright_exit := fun w => (Ret tt, w);
  chromium_launch := fun w => when (launch_ok w) tt w;
  browser_new_page := fun w => (Ret tt, w);
  browser_close := fun w => when (close_ok w) tt w;
  page_goto := fun _ w => (Ret tt, w);
  page_is_visible := fun _ w => (Ret (banner w), w);
  page_click := fun selector w => when (present selector w) tt w;
  page_wait_for_selector := fun selector _ w => when (present selector w) tt w;
  page_locator_all := fun _ w => (Ret (seq 0 (length (dates w))), w);
  locator_get_attribute := fun inp _ w =>
    match dates w !! inp with
    | Some v => (Ret v, w)
    | None => (Raise timeout, w)
    end
|}.

Definition ok_response (updates : option (list update)) : result response :=
  Ret {| r_ok := true; r_status_code := 200; r_text := [];
         r_json := Ret {| body_result := updates |} |}.

Definition error_response : result response :=
  Ret {| r_ok := false; r_status_code := 502; r_text := u "Bad Gateway";
         r_json := Raise (LibraryError (u "JSONDecodeError")) |}.

(** 09:03 on 2026-02-01 in Berlin. *)
Definition morning : datetime :=
  {| dt_year := 2026; dt_month := 2; dt_day := 1; dt_hour := 9;
     dt_minute := 3; dt_tzname := u "CET" |}.

(** A first run: no state file, a page offering the given dates. *)
Definition site (ds : list (option pystr)) : t :=
  {| posts := []; clock := Ret morning;
     file := Raise (LibraryError (u "FileNotFoundError"));
     disk_ok := true; saved := None; launch_ok := true; close_ok := true;
     banner := true; missing := []; dates := ds |}.

Definition with_posts (ps : list (result response)) (w : t) : t :=
  {| posts := ps; clock := clock w; file := file w;
     disk_ok := disk_ok w; saved := saved w;
     launch_ok := launch_ok w; close_ok := close_ok w;
     banner := banner w; missing := missing w; dates := dates w |}.

Definition with_missing (sels : list pystr) (w : t) : t :=
  {| posts := posts w; clock := clock w; file := file w;
     disk_ok := disk_ok w; saved := saved w;
     launch_ok := launch_ok w; close_ok := close_ok w;
     banner := banner w; missing := sels; dates := dates w |}.

Definition with_clock (now : datetime) (w : t) : t :=
  {| posts := posts w; clock := Ret now; file := file w;
     disk_ok := disk_ok w; saved := saved w;
     launch_ok := launch_ok w; close_ok := close_ok w;
     banner := banner w; missing := missing w; dates := dates w |}.

Definition start (w : t) : sys t := Sys w [].

(** An update that carries only an id, and one that carries a text. *)
Definition bare_update (id : Z) : update :=
  {| upd_update_id := Some id; upd_message := None |}.

Definition text_update (id chat : Z) (text : string) : update :=
  {| upd_update_id := Some id;
     upd_message := Some {| msg_chat_id := chat; msg_text := Some (u text) |} |}.

Definition config (chat : pystr) : Config :=
  {| MY_CURRENT_APPOINTMENT := 20260210; BOT_TOKEN := u "123:abc";
     DEFAULT_CHAT_ID := chat; TIMEZONE := u "Europe/Berlin";
     HEARTBEAT_HOUR := 9 |}.

End Fake.


(** ** A runtime that answers each kind of call the same way every time *)

Module Stub.

Record t : Type := {
  enter : result unit;
  launch : result unit;
  page : result unit;
  close : result unit;
  leave : result unit;
  now : result datetime;
  answer : result response;
  stored : result (gmap pystr value);
  write : result unit
}.

#[global] Instance runtime : Runtime t := {|
  str_lower := Fake.lower_ascii;
  requests_post := fun _ _ w => (answer w, w);
  datetime_now := fun _ w => (now w, w);
  open_json_load := fun _ w => (stored w, w);
  open_json_dump := fun _ _ w => (write w, w);
  sync_playwright_enter := fun w => (enter w, w);
  sync_playwright_exit := fun w => (leave w, w);
  chromium_launch := fun w => (launch w, w);
  browser_new_page := fun w => (page w, w);
  browser_close := fun w => (close w, w);
  page_goto := fun _ w => (Ret tt, w);
  page_is_visible := fun _ w => (Ret false, w);
  page_click := fun _ w => (Ret tt, w);
  page_wait_for_selector := fun _ _ w => (Ret tt, w);
  page_locator_all := fun _ w => (Ret [], w);
  locator_get_attribute := fun _ _ w => (Ret None, w)
|}.

Definition crash : exn := LibraryError (u "Error").

(** Everything works; the page offers no date, the API accepts. *)
Definition fine : t :=
  {| enter := Ret tt; launch := Ret tt; page := Ret tt; close := Ret tt;
     leave := Ret tt; now := Ret Fake.morning;
     answer := Fake.ok_response None; stored := Ret ∅; write := Ret tt |}.

Definition start (w : t) : sys t := Sys w [].

End Stub.

(** ** Observations used in the statements *)

(** The (recipient, text) pairs handed to the send-message endpoint,
    newest first. *)
Definition sent_messages (log : list post) : list (pystr * pystr) :=
  omap (fun p => match post_params p with
                 | SendMessage chat_id text _ => Some (chat_id, text)
                 | GetUpdates _ _ => None
                 end) log.

(** A send that the API accepted. *)
Definition delivered (p : post) : bool :=
  match post_params p, post_outcome p with
  | SendMessage _ _ _, Ret r => r_ok r
  | _, _ => false
  end.

Definition delivered_messages (log : list post) : list post :=
  List.filter delivered log.

(** The maximum of the prior offset and every update id of a batch. *)
Definition batch_max (prior : Z) (updates : list update) : Z :=
  foldr Z.max prior (omap upd_update_id updates).

Definition same_date (a b : datetime) : Prop :=
  dt_year a = dt_year b /\ dt_month a = dt_month b /\ dt_day a = dt_day b.

Section Observations.

Context {W : Type} `{Runtime W}.
Variable cfg : Config.

(** The system after [send_telegram chat_id text]: one request more,
    unless the recipient or the credential is missing. *)
Definition after_send (chat_id text : pystr) (s : sys W) : sys W :=
  match chat_id, BOT_TOKEN cfg with
  | [], _ => s
  | _, [] => s
  | _, _ =>
      let url := api_url cfg (u "sendMessage") in
      let p := SendMessage chat_id text true in
      let (r, w) := requests_post url p (world s) in
      Sys w (Post url p r :: http_log s)
  end.

(** The heartbeat's send window: the configured hour, its first
    minutes. *)
Definition in_window (now : datetime) : bool :=
  (dt_hour now =? HEARTBEAT_HOUR cfg)
  && (dt_minute now <? HEARTBEAT_WINDOW_MINUTES).

(** The heartbeat cannot be delivered from world [w]: no credential, a
    network error, or an answer that is not a success. *)
Definition delivery_fails (chat_id text : pystr) (w : W) : Prop :=
  BOT_TOKEN cfg = []
  \/ match fst (requests_post (api_url cfg (u "sendMessage"))
                  (SendMessage chat_id text true) w) with
     | Ret r => r_ok r = false
     | Raise _ => True
     end.

(** The three conditions of the alert on what a scrape found. *)
Definition alert_due (state : gmap pystr value) (found : option Z) : Prop :=
  exists d, found = Some d
    /\ d < MY_CURRENT_APPOINTMENT cfg
    /\ str_of_int d <> py_str (dict_get state K_LAST_NOTIFIED_EARLIEST).

(** The exception [e] came out of a run of the scraper. *)
Definition scraper_raised (e : exn) : Prop :=
  exists s0 s1 : sys W, check_for_appointments s0 = (Raise e, s1).

(** A computation that makes no request to the API, and one that only adds
    requests. *)
Definition keeps_log {A} (m : M W A) : Prop :=
  forall s, http_log (snd (m s)) = http_log s.

Definition extends_log {A} (m : M W A) : Prop :=
  forall s, exists l, http_log (snd (m s)) = l ++ http_log s.


(** The alert claim with the recipient left out: in the scheduled pass the
    alert is sent and the record updated exactly when the three
    conditions hold. *)
Definition alert_iff_conditions (state : gmap pystr value) (s : sys W) : Prop :=
  forall found s1 state' s',
    check_for_appointments s = (Ret found, s1) ->
    scheduled_alert cfg state s = (Ret state', s') ->
    (exists d, found = Some d
       /\ sent_messages (http_log s')
          = (DEFAULT_CHAT_ID cfg, alert_text cfg d)
              :: sent_messages (http_log s1)
       /\ state' = <[K_LAST_NOTIFIED_EARLIEST := VInt d]> state)
    <-> alert_due state found.

End Observations.


(** The integers a list of date-input values stands for: those of the
    values that are non-empty and all digits. *)
Definition candidates (vals : list (option pystr)) : list Z :=
  omap (fun val => match val with
                   | Some s => if isdigit s then decimal_value 0 s else None
                   | None => None
                   end) vals.

(** The minimum of a list, none for the empty list. *)
Definition list_min (l : list Z) : option Z :=
  match l with
  | [] => None
  | x :: l' => Some (foldr Z.min x l')
  end.

(** Equality of two strings, as a boolean. *)
Fixpoint pystr_eqb (a b : pystr) : bool :=
  match a, b with
  | [], [] => true
  | x :: a', y :: b' => (x =? y)%N && pystr_eqb a' b'
  | _, _ => false
  end.

(** The integers [lo], [lo + 1], ... : [len] of them. *)
Fixpoint z_range (lo : Z) (len : nat) : list Z :=
  match len with
  | O => []
  | S k => lo :: z_range (lo + 1) k
  end.

(** A calendar date as [datetime] has them. *)
Definition proper_date (d : datetime) : Prop :=
  1 <= dt_year d <= 9999 /\ 1 <= dt_month d <= 12 /\ 1 <= dt_day d <= 31.

(** The chat ids, as text, of the messages of a batch. *)
Definition senders (updates : list update) : list pystr :=
  omap (fun upd => match upd_message upd with
                   | Some msg => Some (str_of_int (msg_chat_id msg))
                   | None => None
                   end) updates.

(** The outcome of [try: ... finally: close] inside [with playwright]:
    an exception of the exit wins over one of the close, which wins over
    the outcome of the body. *)
Definition after_teardown {A} (body : result A) (close leave : result unit)
    : result A :=
  match leave with
  | Raise e => Raise e
  | Ret _ => match close with
             | Raise e => Raise e
             | Ret _ => body
             end
  end.

Section Dispatch.

Context {W : Type} `{Runtime W}.

(** An update the command processor has nothing to answer to: no message,
    no text once stripped, or a text that is not a command. *)
Definition silent (upd : update) : Prop :=
  match upd_message upd with
  | None => True
  | Some msg =>
      let text := strip (default [] (msg_text msg)) in
      text = []
      \/ (~ str_lower text ∈ [u "/start"; u "start"]
          /\ ~ str_lower text ∈ [u "/check"; u "check"; u "/status"; u "status"])
  end.

End Dispatch.

Section Guard.

Context {W : Type} `{Runtime W}.

(** The exception-safety claim with the teardown left out: once the page
    is open, an exception of the navigation sequence always ends in the
    scraper returning none. *)
Definition navigation_errors_caught (s : sys W) : Prop :=
  forall sa sb s0 e s1,
    perform sync_playwright_enter s = (Ret tt, sa) ->
    perform chromium_launch sa = (Ret tt, sb) ->
    perform browser_new_page sb = (Ret tt, s0) ->
    navigate s0 = (Raise e, s1) ->
    exists s', check_for_appointments s = (Ret None, s').

End Guard.

(** A page on which the quantity selector never shows up, in a browser
    whose [close] raises. *)
Definition stuck_site : Fake.t :=
  {| Fake.posts := []; Fake.clock := Ret Fake.morning;
     Fake.file := Raise (LibraryError (u "FileNotFoundError"));
     Fake.disk_ok := true; Fake.saved := None;
     Fake.launch_ok := true; Fake.close_ok := false;
     Fake.banner := true; Fake.missing := [u "#inputBox-5635"];
     Fake.dates := [Some (u "20260201")] |}.

(** * Properties *)

Example isdigit_ascii : isdigit (u "20260210") = true.
Proof. reflexivity. Qed.

Example isdigit_superscript : isdigit [0xb2%N] = true.
Proof. reflexivity. Qed.

Example py_int_ascii : py_int (u "20260210") = Ret 20260210.
Proof. reflexivity. Qed.

Example py_int_superscript : py_int [0xb2%N] = Raise ValueError.
Proof. reflexivity. Qed.

Example str_of_int_date : str_of_int 20260210 = u "20260210".
Proof. reflexivity. Qed.

Example str_of_int_zero : str_of_int 0 = u "0".
Proof. reflexivity. Qed.

Example str_of_int_neg : str_of_int (-15) = u "-15".
Proof. reflexivity. Qed.

Example strip_check : strip (u "  /check ") = u "/check".
Proof. reflexivity. Qed.

Example scrape_two_dates :
  fst (check_for_appointments
         (Fake.start (Fake.site [Some (u "20260301"); Some (u "20260201")])))
  = Ret (Some 20260201).
Proof. vm_compute. reflexivity. Qed.

Example scrape_no_form :
  fst (check_for_appointments
         (Fake.start (Fake.with_missing [u ".suggestion_form"]
                        (Fake.site [Some (u "20260301")]))))
  = Ret None.
Proof. vm_compute. reflexivity. Qed.

Example isoformat_morning : isoformat Fake.morning = u "2026-02-01".
Proof. reflexivity. Qed.

(** The text of an integer starts with a digit or a minus sign: it is
    never the text of [None]. *)
Lemma str_of_int_not_None n : str_of_int n <> py_str VNone.
Proof.
  unfold str_of_int. destruct (Z.to_int n) as [d|d]; [|discriminate].
  destruct d; discriminate.
Qed.

Lemma same_date_isoformat a b : same_date a b -> isoformat a = isoformat b.
Proof. intros (Hy & Hm & Hd). unfold isoformat. by rewrite Hy, Hm, Hd. Qed.

(** The keys of the record are pairwise distinct. *)
Lemma keys_distinct :
  K_LAST_PING_DATE <> K_LAST_UPDATE_ID
  /\ K_LAST_PING_DATE <> K_LAST_NOTIFIED_EARLIEST
  /\ K_LAST_UPDATE_ID <> K_LAST_NOTIFIED_EARLIEST.
Proof. repeat split; intros E; vm_compute in E; discriminate E. Qed.

Section Notifier.

Context {W : Type} `{Runtime W}.
Variable cfg : Config.

Lemma send_telegram_eq chat_id text (s : sys W) :
  send_telegram cfg chat_id text s = (Ret tt, after_send cfg chat_id text s).
Proof.
  unfold send_telegram, after_send, tg_api, try_except, bind, ret, raise.
  destruct chat_id as [|c chat_id]; [reflexivity|].
  destruct (BOT_TOKEN cfg) as [|b token]; [reflexivity|].
  destruct (requests_post _ _ _) as [[resp|e] w]; [|reflexivity].
  destruct (r_ok resp); simpl; [|reflexivity].
  by destruct (r_json resp).
Qed.

Lemma after_send_log chat_id text (s : sys W) :
  http_log (after_send cfg chat_id text s) = http_log s
  \/ exists r, http_log (after_send cfg chat_id text s)
       = Post (api_url cfg (u "sendMessage"))
              (SendMessage chat_id text true) r :: http_log s.
Proof.
  unfold after_send.
  destruct chat_id as [|c chat_id]; [by left|].
  destruct (BOT_TOKEN cfg) as [|b token]; [by left|].
  destruct (requests_post _ _ _) as [r w]. right. by exists r.
Qed.

Lemma after_send_sent chat_id text (s : sys W) :
  chat_id <> [] -> BOT_TOKEN cfg <> [] ->
  sent_messages (http_log (after_send cfg chat_id text s))
  = (chat_id, text) :: sent_messages (http_log s).
Proof.
  intros Hchat Htoken. unfold after_send.
  destruct chat_id as [|c chat_id]; [done|].
  destruct (BOT_TOKEN cfg) as [|b token]; [done|].
  by destruct (requests_post _ _ _) as [r w].
Qed.

End Notifier.

Example send_survives_network_error :
  send_telegram (Fake.config (u "42")) (u "42") (u "hello")
    (Fake.start (Fake.site []))
  = (Ret tt,
     Sys (Fake.site [])
         [Post (api_url (Fake.config (u "42")) (u "sendMessage"))
               (SendMessage (u "42") (u "hello") true)
               (Raise (LibraryError (u "ConnectionError")))]).
Proof. reflexivity. Qed.

Example send_survives_error_response :
  fst (send_telegram (Fake.config (u "42")) (u "42") (u "hello")
         (Fake.start (Fake.with_posts [Fake.error_response] (Fake.site []))))
  = Ret tt.
Proof. reflexivity. Qed.

Section Heartbeat.

Context {W : Type} `{Runtime W}.
Variable cfg : Config.

Lemma py_eq_true a b : py_eq a b = true <-> a = b.
Proof. unfold py_eq. apply bool_decide_eq_true. Qed.

Lemma py_eq_false a b : py_eq a b = false <-> a <> b.
Proof. unfold py_eq. apply bool_decide_eq_false. Qed.

Lemma dict_get_insert (state : gmap pystr value) k v :
  dict_get (<[k := v]> state) k = v.
Proof. unfold dict_get. by rewrite lookup_insert_eq. Qed.

Lemma dict_get_insert_ne (state : gmap pystr value) k k' v :
  k <> k' -> dict_get (<[k := v]> state) k' = dict_get state k'.
Proof. intros Hk. unfold dict_get. by rewrite lookup_insert_ne. Qed.

(** The heartbeat, once the recipient is configured and the clock has
    answered. *)
Lemma heartbeat_eq state (s : sys W) now w :
  DEFAULT_CHAT_ID cfg <> [] ->
  datetime_now (TIMEZONE cfg) (world s) = (Ret now, w) ->
  maybe_send_daily_heartbeat cfg state s =
    if py_eq (dict_get state K_LAST_PING_DATE) (VStr (isoformat now))
    then (Ret state, Sys w (http_log s))
    else if in_window cfg now
    then (Ret (<[K_LAST_PING_DATE := VStr (isoformat now)]> state),
          after_send cfg (DEFAULT_CHAT_ID cfg) (heartbeat_text now)
            (Sys w (http_log s)))
    else (Ret state, Sys w (http_log s)).
Proof.
  intros Hchat Hnow. unfold maybe_send_daily_heartbeat, in_window.
  destruct (DEFAULT_CHAT_ID cfg) as [|c chat] eqn:Echat; [done|].
  unfold bind at 1. unfold perform. rewrite Hnow.
  destruct (py_eq _ _); [reflexivity|].
  destruct (_ && _); [|reflexivity].
  unfold bind. by rewrite send_telegram_eq.
Qed.

Lemma heartbeat_no_recipient state (s : sys W) :
  DEFAULT_CHAT_ID cfg = [] ->
  maybe_send_daily_heartbeat cfg state s = (Ret state, s).
Proof. intros E. unfold maybe_send_daily_heartbeat. by rewrite E. Qed.

Lemma heartbeat_clock_fails state (s : sys W) e w :
  DEFAULT_CHAT_ID cfg <> [] ->
  datetime_now (TIMEZONE cfg) (world s) = (Raise e, w) ->
  maybe_send_daily_heartbeat cfg state s = (Raise e, Sys w (http_log s)).
Proof.
  intros Hchat Hnow. unfold maybe_send_daily_heartbeat.
  destruct (DEFAULT_CHAT_ID cfg); [done|].
  unfold bind, perform. by rewrite Hnow.
Qed.

(** Once today's date is recorded, a run on that date sends nothing. *)
Lemma heartbeat_already_sent state (s : sys W) now w :
  datetime_now (TIMEZONE cfg) (world s) = (Ret now, w) ->
  dict_get state K_LAST_PING_DATE = VStr (isoformat now) ->
  fst (maybe_send_daily_heartbeat cfg state s) = Ret state
  /\ http_log (snd (maybe_send_daily_heartbeat cfg state s)) = http_log s.
Proof.
  intros Hnow Hlast.
  destruct (decide (DEFAULT_CHAT_ID cfg = [])) as [E|E].
  - by rewrite heartbeat_no_recipient.
  - rewrite (heartbeat_eq _ _ now w) by done.
    by rewrite (proj2 (py_eq_true _ _) Hlast).
Qed.

End Heartbeat.

(** C7. The heartbeat sends nothing and leaves the record as it is when
    no default recipient is configured, when the local hour is not the
    heartbeat hour, or when the minute is not below the window width; and
    whenever it does make a request, the recipient is configured, the
    hour and minute are inside the window, today's date was not recorded
    yet, and the request is the one liveness message. *)
Theorem heartbeat_only_in_window :
  forall (W : Type) (R : Runtime W) (cfg : Config)
         (state : gmap pystr value) (s : sys W),
    (DEFAULT_CHAT_ID cfg = [] ->
       maybe_send_daily_heartbeat cfg state s = (Ret state, s))
    /\ (forall now w,
          datetime_now (TIMEZONE cfg) (world s) = (Ret now, w) ->
          dt_hour now <> HEARTBEAT_HOUR cfg
            \/ ~ dt_minute now < HEARTBEAT_WINDOW_MINUTES ->
          fst (maybe_send_daily_heartbeat cfg state s) = Ret state
          /\ http_log (snd (maybe_send_daily_heartbeat cfg state s))
             = http_log s)
    /\ (forall r s',
          maybe_send_daily_heartbeat cfg state s = (r, s') ->
          http_log s' <> http_log s ->
          DEFAULT_CHAT_ID cfg <> []
          /\ exists now w,
               datetime_now (TIMEZONE cfg) (world s) = (Ret now, w)
               /\ dt_hour now = HEARTBEAT_HOUR cfg
               /\ dt_minute now < HEARTBEAT_WINDOW_MINUTES
               /\ dict_get state K_LAST_PING_DATE <> VStr (isoformat now)
               /\ r = Ret (<[K_LAST_PING_DATE := VStr (isoformat now)]> state)
               /\ exists o,
                    http_log s'
                    = Post (api_url cfg (u "sendMessage"))
                        (SendMessage (DEFAULT_CHAT_ID cfg)
                           (heartbeat_text now) true) o :: http_log s).
Proof.
  intros W R cfg state s. split; [apply heartbeat_no_recipient|].
  destruct (decide (DEFAULT_CHAT_ID cfg = [])) as [E|E].
  { rewrite heartbeat_no_recipient by done. split; [done|].
    intros r s' [= <- <-] Hlog. done. }
  destruct (datetime_now (TIMEZONE cfg) (world s)) as [[now|e] w] eqn:Hnow.
  2:{ rewrite (heartbeat_clock_fails _ _ _ e w) by done. split; [done|].
      intros r s' [= <- <-] Hlog. done. }
  rewrite (heartbeat_eq _ _ _ now w) by done. unfold in_window.
  destruct (py_eq _ _) eqn:Hlast.
  { split; [by intros ? ? [= <- <-]|]. intros r s' [= <- <-] Hlog. done. }
  apply py_eq_false in Hlast.
  destruct (Z.eqb_spec (dt_hour now) (HEARTBEAT_HOUR cfg)) as [Hh|Hh];
    destruct (Z.ltb_spec (dt_minute now) HEARTBEAT_WINDOW_MINUTES) as [Hm|Hm];
    simpl.
  2-4: split; [by intros ? ? [= <- <-]|]; by intros r s' [= <- <-] Hlog.
  split.
  - intros now' w' [= <- <-] [Hout|Hout]; [done|]. exfalso. by apply Hout.
  - intros r s' [= <- <-] Hlog. split; [done|]. exists now, w.
    repeat (split; [done|]).
    destruct (after_send_log cfg (DEFAULT_CHAT_ID cfg) (heartbeat_text now)
                (Sys w (http_log s))) as [Hsame|[o Ho]]; [done|].
    by exists o.
Qed.

(** C6. On one local date the heartbeat is sent at most once: a run inside
    the window returns a record that holds today's date, having made at
    most one request, and every later run on that date that is handed
    this record, inside the window or not, makes no request and returns
    the record as it is. *)
Theorem heartbeat_once_per_date :
  forall (W : Type) (R : Runtime W) (cfg : Config)
         (state : gmap pystr value) (s : sys W) now1 w1,
    datetime_now (TIMEZONE cfg) (world s) = (Ret now1, w1) ->
    in_window cfg now1 = true ->
    exists state1 s1,
      maybe_send_daily_heartbeat cfg state s = (Ret state1, s1)
      /\ (http_log s1 = http_log s
          \/ exists o,
               http_log s1
               = Post (api_url cfg (u "sendMessage"))
                   (SendMessage (DEFAULT_CHAT_ID cfg)
                      (heartbeat_text now1) true) o :: http_log s)
      /\ (DEFAULT_CHAT_ID cfg <> [] -> BOT_TOKEN cfg <> [] ->
          dict_get state K_LAST_PING_DATE <> VStr (isoformat now1) ->
          sent_messages (http_log s1)
          = (DEFAULT_CHAT_ID cfg, heartbeat_text now1)
              :: sent_messages (http_log s))
      /\ (DEFAULT_CHAT_ID cfg <> [] ->
          dict_get state1 K_LAST_PING_DATE = VStr (isoformat now1))
      /\ forall (s2 : sys W) now2 w2,
           datetime_now (TIMEZONE cfg) (world s2) = (Ret now2, w2) ->
           same_date now1 now2 ->
           fst (maybe_send_daily_heartbeat cfg state1 s2) = Ret state1
           /\ http_log (snd (maybe_send_daily_heartbeat cfg state1 s2))
              = http_log s2.
Proof.
  intros W R cfg state s now1 w1 Hnow1 Hwin.
  destruct (decide (DEFAULT_CHAT_ID cfg = [])) as [E|E].
  { exists state, s. rewrite heartbeat_no_recipient by done.
    split; [reflexivity|]. split; [by left|]. repeat (split; [done|]).
    intros s2 now2 w2 _ _. by rewrite heartbeat_no_recipient. }
  rewrite (heartbeat_eq _ _ _ now1 w1) by done. rewrite Hwin.
  destruct (py_eq _ _) eqn:Hlast.
  - apply py_eq_true in Hlast. exists state, (Sys w1 (http_log s)).
    split; [reflexivity|]. split; [by left|]. split; [done|].
    split; [done|]. intros s2 now2 w2 Hnow2 Hdate.
    eapply heartbeat_already_sent; eauto.
    by rewrite <- (same_date_isoformat now1 now2).
  - eexists _, _. split; [reflexivity|].
    split; [apply (after_send_log cfg _ _ (Sys w1 (http_log s)))|].
    split; [intros _ Htoken _;
            apply (after_send_sent cfg _ _ (Sys w1 (http_log s))); done|].
    split; [intros _; apply dict_get_insert|].
    intros s2 now2 w2 Hnow2 Hdate.
    eapply heartbeat_already_sent; eauto.
    rewrite dict_get_insert. by rewrite (same_date_isoformat now1 now2).
Qed.

(** C10. When the heartbeat's conditions are met, today's date is recorded
    whatever becomes of the message: if its delivery fails, no message
    was delivered by this run, and no later run on that date that is
    handed the record tries again. *)
Theorem heartbeat_recorded_when_undelivered :
  forall (W : Type) (R : Runtime W) (cfg : Config)
         (state : gmap pystr value) (s : sys W) now w,
    DEFAULT_CHAT_ID cfg <> [] ->
    datetime_now (TIMEZONE cfg) (world s) = (Ret now, w) ->
    in_window cfg now = true ->
    dict_get state K_LAST_PING_DATE <> VStr (isoformat now) ->
    let state1 := <[K_LAST_PING_DATE := VStr (isoformat now)]> state in
    exists s1,
      maybe_send_daily_heartbeat cfg state s = (Ret state1, s1)
      /\ (delivery_fails cfg (DEFAULT_CHAT_ID cfg) (heartbeat_text now) w ->
          delivered_messages (http_log s1) = delivered_messages (http_log s))
      /\ forall (s2 : sys W) now2 w2,
           datetime_now (TIMEZONE cfg) (world s2) = (Ret now2, w2) ->
           same_date now now2 ->
           fst (maybe_send_daily_heartbeat cfg state1 s2) = Ret state1
           /\ http_log (snd (maybe_send_daily_heartbeat cfg state1 s2))
              = http_log s2.
Proof.
  intros W R cfg state s now w Hchat Hnow Hwin Hlast state1.
  rewrite (heartbeat_eq _ _ _ now w) by done. rewrite Hwin.
  rewrite (proj2 (py_eq_false _ _) Hlast).
  eexists. split; [reflexivity|]. split.
  - intros Hfail. unfold after_send, delivery_fails in *.
    destruct (DEFAULT_CHAT_ID cfg) as [|c chat]; [done|].
    destruct (BOT_TOKEN cfg) as [|b token]; [done|].
    destruct Hfail as [Hfail|Hfail]; [done|].
    destruct (requests_post _ _ _) as [[resp|e] w']; simpl in *.
    + unfold delivered_messages. simpl. unfold delivered at 1. simpl.
      by rewrite Hfail.
    + reflexivity.
  - intros s2 now2 w2 Hnow2 Hdate.
    eapply heartbeat_already_sent; eauto. unfold state1.
    rewrite dict_get_insert. by rewrite (same_date_isoformat now now2).
Qed.

Lemma heartbeat_only_in_window_witness :
  maybe_send_daily_heartbeat (Fake.config []) ∅ (Fake.start (Fake.site []))
  = (Ret ∅, Fake.start (Fake.site []))
  /\ (fst (maybe_send_daily_heartbeat (Fake.config (u "42")) ∅
             (Fake.start (Fake.with_clock
                {| dt_year := 2026; dt_month := 2; dt_day := 1; dt_hour := 9;
                   dt_minute := 10; dt_tzname := u "CET" |} (Fake.site []))))
      = Ret ∅
      /\ http_log (snd (maybe_send_daily_heartbeat (Fake.config (u "42")) ∅
             (Fake.start (Fake.with_clock
                {| dt_year := 2026; dt_month := 2; dt_day := 1; dt_hour := 9;
                   dt_minute := 10; dt_tzname := u "CET" |} (Fake.site [])))))
         = [])
  /\ DEFAULT_CHAT_ID (Fake.config (u "42")) <> [].
Proof.
  split; [|split].
  - apply (heartbeat_only_in_window Fake.t Fake.runtime (Fake.config []) ∅
             (Fake.start (Fake.site []))).
    reflexivity.
  - eapply (heartbeat_only_in_window Fake.t Fake.runtime (Fake.config (u "42")) ∅).
    + reflexivity.
    + right. simpl. unfold HEARTBEAT_WINDOW_MINUTES. lia.
  - eapply (heartbeat_only_in_window Fake.t Fake.runtime (Fake.config (u "42")) ∅
              (Fake.start (Fake.site []))).
    + apply surjective_pairing.
    + vm_compute. discriminate.
Defined.

Lemma heartbeat_once_per_date_witness :
  exists state1 s1,
    maybe_send_daily_heartbeat (Fake.config (u "42")) ∅
      (Fake.start (Fake.with_posts [Fake.ok_response None] (Fake.site [])))
    = (Ret state1, s1)
    /\ sent_messages (http_log s1) = [(u "42", heartbeat_text Fake.morning)]
    /\ dict_get state1 K_LAST_PING_DATE = VStr (u "2026-02-01")
    /\ fst (maybe_send_daily_heartbeat (Fake.config (u "42")) state1
              (Fake.start (Fake.with_posts [Fake.ok_response None]
                             (Fake.site []))))
       = Ret state1
    /\ http_log (snd (maybe_send_daily_heartbeat (Fake.config (u "42")) state1
              (Fake.start (Fake.with_posts [Fake.ok_response None]
                             (Fake.site [])))))
       = [].
Proof.
  destruct (heartbeat_once_per_date Fake.t Fake.runtime (Fake.config (u "42")) ∅
              (Fake.start (Fake.with_posts [Fake.ok_response None]
                             (Fake.site [])))
              Fake.morning
              (Fake.with_posts [Fake.ok_response None] (Fake.site []))
              eq_refl eq_refl)
    as (state1 & s1 & Hrun & _ & Hsent & Hrec & Hnext).
  exists state1, s1. split; [exact Hrun|]. split; [|split].
  - apply Hsent; discriminate.
  - apply Hrec. discriminate.
  - apply (Hnext (Fake.start (Fake.with_posts [Fake.ok_response None]
                                (Fake.site []))) Fake.morning
                   (Fake.with_posts [Fake.ok_response None] (Fake.site []))
                   eq_refl).
    repeat split.
Defined.

Lemma heartbeat_recorded_when_undelivered_witness :
  exists s1,
    maybe_send_daily_heartbeat (Fake.config (u "42")) ∅
      (Fake.start (Fake.with_posts [Fake.error_response] (Fake.site [])))
    = (Ret {[ K_LAST_PING_DATE := VStr (u "2026-02-01") ]}, s1)
    /\ delivered_messages (http_log s1) = []
    /\ http_log (snd (maybe_send_daily_heartbeat (Fake.config (u "42"))
                        {[ K_LAST_PING_DATE := VStr (u "2026-02-01") ]}
                        (Fake.start (Fake.with_posts [Fake.ok_response None]
                                       (Fake.site [])))))
       = [].
Proof.
  destruct (heartbeat_recorded_when_undelivered Fake.t Fake.runtime (Fake.config (u "42")) ∅
              (Fake.start (Fake.with_posts [Fake.error_response]
                             (Fake.site [])))
              Fake.morning
              (Fake.with_posts [Fake.error_response] (Fake.site []))
              ltac:(discriminate) eq_refl eq_refl ltac:(discriminate))
    as (s1 & Hrun & Hnone & Hlater).
  exists s1. split; [exact Hrun|]. split.
  - apply Hnone. right. reflexivity.
  - apply (Hlater (Fake.start (Fake.with_posts [Fake.ok_response None]
                                 (Fake.site [])))
                  Fake.morning
                  (Fake.with_posts [Fake.ok_response None] (Fake.site []))
                  eq_refl).
    repeat split.
Defined.

Section Frames.

Context {W : Type} `{Runtime W}.

Lemma keeps_ret {A} (a : A) : keeps_log (ret (W:=W) a).
Proof. by intros s. Qed.

Lemma keeps_raise {A} e : keeps_log (raise (W:=W) (A:=A) e).
Proof. by intros s. Qed.

Lemma keeps_lift {A} (r : result A) : keeps_log (lift (W:=W) r).
Proof. by intros s. Qed.

Lemma keeps_perform {A} (op : W -> result A * W) : keeps_log (perform op).
Proof. intros s. unfold perform. by destruct (op (world s)). Qed.

Lemma keeps_bind {A B} (m : M W A) (k : A -> M W B) :
  keeps_log m -> (forall a, keeps_log (k a)) -> keeps_log (bind m k).
Proof.
  intros Hm Hk s. unfold bind. specialize (Hm s).
  destruct (m s) as [[a|e] s']; simpl in *; [|done].
  by rewrite Hk.
Qed.

Lemma keeps_try_except {A} (m : M W A) h :
  keeps_log m -> (forall e, keeps_log (h e)) -> keeps_log (try_except m h).
Proof.
  intros Hm Hh s. unfold try_except. specialize (Hm s).
  destruct (m s) as [[a|e] s']; simpl in *; [done|].
  by rewrite Hh.
Qed.

Lemma keeps_try_finally {A} (m : M W A) f :
  keeps_log m -> keeps_log f -> keeps_log (try_finally m f).
Proof.
  intros Hm Hf s. unfold try_finally. specialize (Hm s).
  destruct (m s) as [r s']. specialize (Hf s').
  destruct (f s') as [[[]|e] s'']; simpl in *; congruence.
Qed.

Lemma keeps_extends {A} (m : M W A) : keeps_log m -> extends_log m.
Proof. intros Hm s. exists []. apply Hm. Qed.

Lemma extends_bind {A B} (m : M W A) (k : A -> M W B) :
  extends_log m -> (forall a, extends_log (k a)) -> extends_log (bind m k).
Proof.
  intros Hm Hk s. unfold bind. destruct (Hm s) as [l Hl].
  destruct (m s) as [[a|e] s']; simpl in *; [|by exists l].
  destruct (Hk a s') as [l' Hl']. exists (l' ++ l).
  by rewrite Hl', Hl, app_assoc.
Qed.

End Frames.

Create HintDb frames.

#[local] Hint Resolve keeps_ret keeps_raise keeps_lift keeps_perform
  keeps_bind keeps_try_except keeps_try_finally : frames.

Section Scraper.

Context {W : Type} `{Runtime W}.

Lemma collect_dates_keeps_log inputs found :
  keeps_log (collect_dates (W:=W) inputs found).
Proof.
  revert found. induction inputs as [|inp rest IH]; intros found; simpl.
  - auto with frames.
  - apply keeps_bind; [auto with frames|]. intros val.
    apply keeps_bind; [|auto].
    destruct val as [[|c v]|]; auto with frames.
    match goal with
    | |- keeps_log (if ?b then _ else _) => destruct b
    end; auto with frames.
Qed.

Lemma navigate_keeps_log : keeps_log (navigate (W:=W)).
Proof.
  unfold navigate, open_suggestions, read_earliest.
  repeat (first [ apply keeps_bind; [|intros ?]
                | apply keeps_try_except; [|intros ?]
                | apply collect_dates_keeps_log
                | match goal with
                  | |- keeps_log (if ?b then _ else _) => destruct b
                  end
                | solve [auto with frames] ]).
Qed.

(** The scraper talks to the browser only: it makes no API request. *)
Lemma check_for_appointments_keeps_log :
  keeps_log (check_for_appointments (W:=W)).
Proof.
  unfold check_for_appointments.
  repeat (first [ apply navigate_keeps_log
                | apply keeps_bind; [|intros ?]
                | apply keeps_try_finally
                | apply keeps_try_except; [|intros ?]
                | solve [auto with frames] ]).
Qed.

(** The guarded navigation never raises. *)
Lemma guarded_navigate_returns (s : sys W) :
  exists r s', try_except navigate (fun _ => ret None) s = (Ret r, s').
Proof.
  unfold try_except. destruct (navigate s) as [[r|e] s']; by eauto.
Qed.

(** With the session open and the teardown in order, the scraper returns
    what the guarded navigation returns. *)
Lemma check_for_appointments_eq (s sa sb s0 s1 s2 s3 : sys W) r :
  perform sync_playwright_enter s = (Ret tt, sa) ->
  perform chromium_launch sa = (Ret tt, sb) ->
  perform browser_new_page sb = (Ret tt, s0) ->
  try_except navigate (fun _ => ret None) s0 = (r, s1) ->
  perform browser_close s1 = (Ret tt, s2) ->
  perform sync_playwright_exit s2 = (Ret tt, s3) ->
  check_for_appointments s = (r, s3).
Proof.
  intros Henter Hlaunch Hpage Hnav Hclose Hexit.
  unfold check_for_appointments.
  unfold bind at 1. rewrite Henter.
  unfold try_finally at 1. unfold bind at 1. rewrite Hlaunch.
  unfold bind at 1. rewrite Hpage.
  unfold try_finally at 1. rewrite Hnav, Hclose, Hexit. reflexivity.
Qed.

(** A suggestion form that does not show up is "no slots". *)
Lemma navigate_no_form (s0 s' s1 : sys W) e :
  open_suggestions s0 = (Ret tt, s') ->
  perform (page_wait_for_selector (u ".suggestion_form") 7000) s'
    = (Raise e, s1) ->
  navigate s0 = (Ret None, s1).
Proof.
  intros Hopen Hwait. unfold navigate.
  unfold bind at 1. rewrite Hopen.
  unfold bind at 1. unfold try_except. unfold bind at 1. by rewrite Hwait.
Qed.

End Scraper.

(** C3, as amended.  Whatever exception the navigation sequence raises,
    the scraper catches it and returns none, provided the teardown that
    follows ([browser.close()] in the [finally], then the exit of the
    playwright context) does not raise itself; and a suggestion form that
    never shows up makes the navigation return none without an exception,
    and the scraper with it under the same proviso.  (The browser session
    is opened before the guarded part.) *)
Theorem navigation_errors_give_none :
  forall (W : Type) (R : Runtime W) (s sa sb s0 s1 s2 s3 : sys W),
    perform sync_playwright_enter s = (Ret tt, sa) ->
    perform chromium_launch sa = (Ret tt, sb) ->
    perform browser_new_page sb = (Ret tt, s0) ->
    perform browser_close s1 = (Ret tt, s2) ->
    perform sync_playwright_exit s2 = (Ret tt, s3) ->
    (forall e, navigate s0 = (Raise e, s1) ->
               check_for_appointments s = (Ret None, s3))
    /\ (forall e s',
          open_suggestions s0 = (Ret tt, s') ->
          perform (page_wait_for_selector (u ".suggestion_form") 7000) s'
            = (Raise e, s1) ->
          navigate s0 = (Ret None, s1)
          /\ check_for_appointments s = (Ret None, s3)).
Proof.
  intros W R s sa sb s0 s1 s2 s3 Henter Hlaunch Hpage Hclose Hexit. split.
  - intros e Hnav.
    apply (check_for_appointments_eq s sa sb s0 s1 s2 s3); try done.
    unfold try_except. by rewrite Hnav.
  - intros e s' Hopen Hwait.
    pose proof (navigate_no_form _ _ _ _ Hopen Hwait) as Hnav.
    split; [done|].
    apply (check_for_appointments_eq s sa sb s0 s1 s2 s3); try done.
    unfold try_except. by rewrite Hnav.
Qed.

Lemma navigation_errors_give_none_witness :
  check_for_appointments
    (Fake.start (Fake.with_missing [u "#inputBox-5635"]
                   (Fake.site [Some (u "20260201")])))
  = (Ret None,
     Fake.start (Fake.with_missing [u "#inputBox-5635"]
                   (Fake.site [Some (u "20260201")])))
  /\ check_for_appointments
       (Fake.start (Fake.with_missing [u ".suggestion_form"]
                      (Fake.site [Some (u "20260201")])))
     = (Ret None,
        Fake.start (Fake.with_missing [u ".suggestion_form"]
                      (Fake.site [Some (u "20260201")]))).
Proof.
  split.
  - set (s := Fake.start (Fake.with_missing [u "#inputBox-5635"]
                            (Fake.site [Some (u "20260201")]))).
    apply (proj1 (navigation_errors_give_none Fake.t Fake.runtime
                    s s s s s s s eq_refl eq_refl eq_refl eq_refl eq_refl)
                 Fake.timeout).
    vm_compute. reflexivity.
  - set (s := Fake.start (Fake.with_missing [u ".suggestion_form"]
                            (Fake.site [Some (u "20260201")]))).
    apply (proj2 (navigation_errors_give_none Fake.t Fake.runtime
                    s s s s s s s eq_refl eq_refl eq_refl eq_refl eq_refl)
                 Fake.timeout s);
      vm_compute; reflexivity.
Defined.

(** C3, as stated, fails: the wait for the quantity selector times out,
    the handler turns that into none, and then [browser.close()] raises in
    the [finally]: the scraper raises instead of returning none. *)
Lemma navigation_error_then_close_raises :
  ~ navigation_errors_caught (Fake.start stuck_site).
Proof.
  intros Hclaim. set (s := Fake.start stuck_site) in *.
  assert (navigate s = (Raise Fake.timeout, s)) as Hnav
    by (vm_compute; reflexivity).
  destruct (Hclaim s s s Fake.timeout s eq_refl eq_refl eq_refl Hnav)
    as [s' Hcheck].
  vm_compute in Hcheck. discriminate Hcheck.
Qed.

Example stuck_site_raises :
  check_for_appointments (Fake.start stuck_site)
  = (Raise Fake.timeout, Fake.start stuck_site).
Proof. vm_compute. reflexivity. Qed.

(** Every selector of the sequence, when it never shows up, ends the
    scrape with none. *)
Example any_missing_selector_gives_none :
  forallb
    (fun selector =>
       match fst (check_for_appointments
                    (Fake.start (Fake.with_missing [selector]
                                   (Fake.site [Some (u "20260201")])))) with
       | Ret None => true
       | _ => false
       end)
    [u "#cookie_msg_btn_no"; u "#inputBox-5635"; u "#button-plus-5635";
     u "#WeiterButton"; u "#TevisDialog";
     u "#TevisDialog .modal-footer .btn-ok";
     u "div.suggest_location_single"; u ".suggestion_form"]
  = true.
Proof. vm_compute. reflexivity. Qed.

(** ** The minimum of the dates *)

Lemma foldr_min_spec (x : Z) (l : list Z) :
  foldr Z.min x l ∈ x :: l /\ forall y, y ∈ x :: l -> foldr Z.min x l <= y.
Proof.
  induction l as [|a l [IHin IHle]]; simpl.
  - split; [by left|]. intros y Hy. apply list_elem_of_singleton in Hy. lia.
  - split.
    + destruct (Z.min_spec a (foldr Z.min x l)) as [[_ ->]|[_ ->]].
      * right. by left.
      * apply elem_of_cons in IHin as [->|IHin]; [by left|].
        right. by right.
    + intros y Hy.
      assert (y = a \/ y ∈ x :: l) as [->|Hy'].
      { apply elem_of_cons in Hy as [->|Hy]; [right; by left|].
        apply elem_of_cons in Hy as [->|Hy]; [by left|].
        right. by right. }
      * lia.
      * specialize (IHle y Hy'). lia.
Qed.

Lemma py_min_spec (s : gset Z) (m : Z) :
  py_min s = Ret m <-> m ∈ s /\ forall y, y ∈ s -> m <= y.
Proof.
  unfold py_min. destruct (elements s) as [|x l] eqn:E.
  - apply elements_empty_inv in E. apply leibniz_equiv in E. subst s.
    split; [done|]. intros [Hin _]. by apply not_elem_of_empty in Hin.
  - destruct (foldr_min_spec x l) as [Hin Hle].
    assert (forall y, y ∈ s <-> y ∈ x :: l) as Hs.
    { intros y. by rewrite <- E, elem_of_elements. }
    split.
    + intros [= <-]. split; [by apply Hs|]. intros y Hy. by apply Hle, Hs.
    + intros [Hm Hmin]. f_equal.
      apply Z.le_antisymm; [by apply Hle, Hs|by apply Hmin, Hs].
Qed.



(** ** Parsing the date values *)

Lemma decimal_of_is_decimal c :
  Unicode.is_decimal c = true -> exists d, Unicode.decimal c = Some d.
Proof.
  unfold Unicode.is_decimal, Unicode.decimal, Unicode.in_ranges.
  induction Unicode.decimal_ranges as [|r rs IH]; simpl; [done|].
  destruct (Unicode.in_range c r); simpl; eauto.
Qed.

Lemma decimal_value_total acc s :
  forallb Unicode.is_decimal s = true -> exists n, decimal_value acc s = Some n.
Proof.
  revert acc. induction s as [|c s IH]; intros acc Hs; simpl in *; [eauto|].
  apply andb_true_iff in Hs as [Hc Hs].
  destruct (decimal_of_is_decimal c Hc) as [d ->]. by apply IH.
Qed.

Lemma py_int_decimal s :
  s <> [] ->
  forallb Unicode.is_decimal s = true ->
  (length s <= int_max_str_digits)%nat ->
  exists n, decimal_value 0 s = Some n /\ py_int s = Ret n.
Proof.
  intros Hne Hdec Hlen. destruct (decimal_value_total 0 s Hdec) as [n Hn].
  exists n. split; [done|]. unfold py_int.
  destruct (Nat.ltb_spec int_max_str_digits (length s)); [lia|].
  destruct s; [done|]. by rewrite Hn.
Qed.


Section Dates.

Context {W : Type} `{Runtime W}.


(** A value that passes the digit test and that [int] refuses stops the
    loop with the exception of [int]. *)
Lemma collect_dates_unparsed inp rest found (s s' : sys W) val e :
  perform (locator_get_attribute inp (u "value")) s = (Ret (Some val), s') ->
  isdigit val = true ->
  py_int val = Raise e ->
  collect_dates (inp :: rest) found s = (Raise e, s').
Proof.
  intros Hread Hdigit Hint. cbn [collect_dates].
  unfold bind at 1. rewrite Hread.
  destruct val as [|c v]; [done|]. rewrite Hdigit.
  unfold bind, lift. by rewrite Hint.
Qed.


End Dates.

Example candidates_ascii :
  candidates [Some (u "20260301"); None; Some []; Some (u "n/a");
              Some (u "20260201")]
  = [20260301; 20260201].
Proof. reflexivity. Qed.

Example scrape_skips_non_numeric :
  fst (check_for_appointments
         (Fake.start (Fake.site [Some (u "20260301"); None; Some [];
                                 Some (u "n/a"); Some (u "20260201")])))
  = Ret (Some 20260201).
Proof. vm_compute. reflexivity. Qed.

Example scrape_nothing_numeric :
  fst (check_for_appointments
         (Fake.start (Fake.site [None; Some []; Some (u "n/a")])))
  = Ret None.
Proof. vm_compute. reflexivity. Qed.

(** C2. A date value that passes the digit test without being a decimal
    number breaks the scrape: SUPERSCRIPT TWO is a digit for [isdigit],
    [int] refuses it, the [ValueError] is caught by the outer handler,
    and the scraper returns none although the page also shows the valid
    date 20260101, which is the minimum of the candidates. *)
Theorem superscript_digit_loses_dates :
  isdigit [0xb2%N] = true
  /\ py_int [0xb2%N] = Raise ValueError
  /\ list_min (candidates [Some (u "20260101"); Some [0xb2%N]])
     = Some 20260101
  /\ fst (check_for_appointments
            (Fake.start (Fake.site [Some (u "20260101"); Some [0xb2%N]])))
     = Ret None.
Proof. repeat split; vm_compute; reflexivity. Qed.

(** ** The scheduled alert *)

Lemma cons_neq {A} (x : A) (l : list A) : x :: l <> l.
Proof.
  intros E. apply (f_equal length) in E. simpl in E. lia.
Qed.

Section Alert.

Context {W : Type} `{Runtime W}.
Variable cfg : Config.

Lemma scheduled_alert_raises state (s s1 : sys W) e :
  check_for_appointments s = (Raise e, s1) ->
  scheduled_alert cfg state s = (Raise e, s1).
Proof. intros Hcheck. unfold scheduled_alert, bind. by rewrite Hcheck. Qed.

Lemma scheduled_alert_due state (s s1 : sys W) d :
  check_for_appointments s = (Ret (Some d), s1) ->
  d < MY_CURRENT_APPOINTMENT cfg ->
  str_of_int d <> py_str (dict_get state K_LAST_NOTIFIED_EARLIEST) ->
  scheduled_alert cfg state s
  = (Ret (<[K_LAST_NOTIFIED_EARLIEST := VInt d]> state),
     after_send cfg (DEFAULT_CHAT_ID cfg) (alert_text cfg d) s1).
Proof.
  intros Hcheck Hlt Hnew. unfold scheduled_alert.
  unfold bind at 1. rewrite Hcheck.
  destruct (Z.ltb_spec d (MY_CURRENT_APPOINTMENT cfg)); [|lia].
  rewrite bool_decide_eq_false_2 by done. simpl.
  unfold bind, ret, after_send.
  destruct (DEFAULT_CHAT_ID cfg) as [|c chat] eqn:Echat; [done|].
  rewrite send_telegram_eq. unfold after_send. done.
Qed.

Lemma scheduled_alert_not_due state (s s1 : sys W) found :
  check_for_appointments s = (Ret found, s1) ->
  ~ alert_due cfg state found ->
  scheduled_alert cfg state s = (Ret state, s1).
Proof.
  intros Hcheck Hnot. unfold scheduled_alert.
  unfold bind at 1. rewrite Hcheck.
  destruct found as [d|]; [|done].
  destruct (Z.ltb_spec d (MY_CURRENT_APPOINTMENT cfg)); [|done].
  case_bool_decide as Hsame; [done|].
  exfalso. apply Hnot. by exists d.
Qed.

Lemma alert_due_changes state d :
  str_of_int d <> py_str (dict_get state K_LAST_NOTIFIED_EARLIEST) ->
  <[K_LAST_NOTIFIED_EARLIEST := VInt d]> state <> state.
Proof.
  intros Hnew E. apply Hnew.
  rewrite <- E at 1. by rewrite dict_get_insert.
Qed.

End Alert.

(** C1, as amended.  In the scheduled pass, once the scraper has
    returned: [last_notified_earliest] is set to the found date exactly
    when a date was found, it is strictly below the threshold and its text
    differs from the text of the stored value; the alert is sent exactly
    when, in addition, a default recipient is configured; and when the
    three conditions do not all hold, nothing is sent and the record is
    unchanged.  (The credential is present: [main] stops at once
    without it.) *)
Theorem alert_on_earlier_date :
  forall (W : Type) (R : Runtime W) (cfg : Config)
         (state : gmap pystr value) (s s1 : sys W) found,
    BOT_TOKEN cfg <> [] ->
    check_for_appointments s = (Ret found, s1) ->
    exists state' s',
      scheduled_alert cfg state s = (Ret state', s')
      /\ ((exists d, found = Some d
             /\ state' = <[K_LAST_NOTIFIED_EARLIEST := VInt d]> state
             /\ state' <> state)
          <-> alert_due cfg state found)
      /\ ((exists d, found = Some d
             /\ sent_messages (http_log s')
                = (DEFAULT_CHAT_ID cfg, alert_text cfg d)
                    :: sent_messages (http_log s1))
          <-> alert_due cfg state found /\ DEFAULT_CHAT_ID cfg <> [])
      /\ (~ alert_due cfg state found -> state' = state /\ s' = s1).
Proof.
  intros W R cfg state s s1 found Htoken Hcheck.
  destruct found as [d|].
  2:{ assert (~ alert_due cfg state None) as Hnot by (by intros (d & ? & _)).
      exists state, s1.
      split; [by eapply scheduled_alert_not_due|].
      split; [split; [by intros (d & ? & _)|done]|].
      split; [split; [by intros (d & ? & _)|by intros [? _]]|done]. }
  destruct (decide (d < MY_CURRENT_APPOINTMENT cfg)) as [Hlt|Hge];
    [destruct (decide (str_of_int d
                       = py_str (dict_get state K_LAST_NOTIFIED_EARLIEST)))
       as [Hsame|Hnew]|].
  2:{ (* the alert is due *)
      assert (alert_due cfg state (Some d)) as Hdue by (by exists d).
      eexists _, _. split; [by apply scheduled_alert_due|].
      split.
      { split; [done|]. intros _. exists d.
        split; [done|]. split; [done|]. by apply alert_due_changes. }
      split; [|done].
      split.
      - intros (d' & [= <-] & Hsent). split; [done|].
        intros Echat. unfold after_send in Hsent. rewrite Echat in Hsent.
        symmetry in Hsent. by apply cons_neq in Hsent.
      - intros [_ Hchat]. exists d. split; [done|].
        by apply after_send_sent. }
  all: assert (~ alert_due cfg state (Some d)) as Hnot
         by (intros (d' & [= <-] & ? & ?); done).
  all: exists state, s1.
  all: split; [by eapply scheduled_alert_not_due|].
  all: split; [split; [intros (d' & _ & _ & Hchg); done|done]|].
  all: split; [|done].
  all: split; [intros (d' & _ & Hsent); symmetry in Hsent;
               by apply cons_neq in Hsent
              |by intros [? _]].
Qed.

Lemma alert_on_earlier_date_witness :
  exists s',
    scheduled_alert (Fake.config (u "42")) ∅
      (Fake.start (Fake.site [Some (u "20260201")]))
    = (Ret {[ K_LAST_NOTIFIED_EARLIEST := VInt 20260201 ]}, s')
    /\ sent_messages (http_log s')
       = [(u "42", alert_text (Fake.config (u "42")) 20260201)].
Proof.
  assert (BOT_TOKEN (Fake.config (u "42")) <> []) as Htoken by discriminate.
  assert (check_for_appointments
            (Fake.start (Fake.site [Some (u "20260201")]))
          = (Ret (Some 20260201),
             Fake.start (Fake.site [Some (u "20260201")]))) as Hcheck
    by (vm_compute; reflexivity).
  destruct (alert_on_earlier_date Fake.t Fake.runtime (Fake.config (u "42")) ∅
              _ _ _ Htoken Hcheck)
    as (state' & s' & Hrun & Hupd & Hsent & _).
  assert (alert_due (Fake.config (u "42")) ∅ (Some 20260201)) as Hdue.
  { exists 20260201. split; [reflexivity|]. split; [reflexivity|].
    vm_compute. discriminate. }
  assert (DEFAULT_CHAT_ID (Fake.config (u "42")) <> []) as Hchat
    by discriminate.
  exists s'.
  destruct (proj2 Hupd Hdue) as (d & Hd & Hstate & _).
  destruct (proj2 Hsent (conj Hdue Hchat)) as (d' & Hd' & Hlog).
  injection Hd as <-. injection Hd' as <-.
  split.
  - rewrite Hrun, Hstate. reflexivity.
  - exact Hlog.
Defined.

(** C1, as stated, fails: with no default recipient configured, a first
    run that finds 20260201 (threshold 20260210) meets the three
    conditions and updates the record, yet sends no alert. *)
Lemma alert_needs_recipient :
  ~ alert_iff_conditions (Fake.config []) ∅
      (Fake.start (Fake.site [Some (u "20260201")])).
Proof.
  intros Hclaim.
  specialize (Hclaim (Some 20260201)
                (Fake.start (Fake.site [Some (u "20260201")]))
                {[ K_LAST_NOTIFIED_EARLIEST := VInt 20260201 ]}
                (Fake.start (Fake.site [Some (u "20260201")]))).
  destruct Hclaim as [_ Hclaim]; [vm_compute; reflexivity..|].
  destruct Hclaim as (d & _ & Hsent & _).
  - exists 20260201. split; [reflexivity|]. split; [reflexivity|].
    vm_compute. discriminate.
  - vm_compute in Hsent. discriminate Hsent.
Qed.

(** ** The command processor *)

Lemma foldr_max_shift (m i : Z) (l : list Z) :
  foldr Z.max (Z.max m i) l = Z.max i (foldr Z.max m l).
Proof. induction l as [|a l IH]; simpl; lia. Qed.

Lemma batch_max_cons prior upd updates :
  batch_max prior (upd :: updates)
  = batch_max (Z.max prior (default prior (upd_update_id upd))) updates.
Proof.
  unfold batch_max. simpl. destruct (upd_update_id upd) as [i|]; simpl.
  - by rewrite foldr_max_shift.
  - by rewrite Z.max_id.
Qed.

Lemma batch_max_ge prior updates : prior <= batch_max prior updates.
Proof.
  unfold batch_max. induction (omap upd_update_id updates); simpl; lia.
Qed.

(** [batch_max] is an upper bound of the ids of the batch, and is the
    prior value or one of them. *)
Lemma batch_max_upper prior updates upd i :
  upd ∈ updates -> upd_update_id upd = Some i ->
  i <= batch_max prior updates.
Proof.
  intros Hin Hid. unfold batch_max.
  assert (i ∈ omap upd_update_id updates) as Hi.
  { apply list_elem_of_omap. by exists upd. }
  induction (omap upd_update_id updates) as [|a l IH]; simpl.
  - by apply not_elem_of_nil in Hi.
  - apply elem_of_cons in Hi as [->|Hi]; [lia|]. specialize (IH Hi). lia.
Qed.

Lemma foldr_max_attained (m : Z) (l : list Z) :
  foldr Z.max m l = m \/ foldr Z.max m l ∈ l.
Proof.
  induction l as [|a l IH]; simpl; [by left|].
  destruct (Z.max_spec a (foldr Z.max m l)) as [[_ ->]|[_ ->]].
  - destruct IH as [IH|IH]; [by left|]. right. by right.
  - right. by left.
Qed.

Lemma batch_max_attained prior updates :
  batch_max prior updates = prior
  \/ exists upd, upd ∈ updates
       /\ upd_update_id upd = Some (batch_max prior updates).
Proof.
  unfold batch_max.
  destruct (foldr_max_attained prior (omap upd_update_id updates))
    as [Hm|Hm]; [by left|].
  right. by apply list_elem_of_omap in Hm.
Qed.

Section Commands.

Context {W : Type} `{Runtime W}.
Variable cfg : Config.

Lemma send_telegram_extends chat_id text :
  extends_log (send_telegram (W:=W) cfg chat_id text).
Proof.
  intros s. rewrite send_telegram_eq. simpl.
  destruct (after_send_log cfg chat_id text s) as [->|[o ->]].
  - by exists [].
  - by eexists [_].
Qed.

(** Handling one update either completes or stops on an exception that
    came out of the scraper. *)
Lemma handle_update_outcome upd (s : sys W) :
  (exists s', handle_update cfg upd s = (Ret tt, s'))
  \/ (exists e s', handle_update cfg upd s = (Raise e, s')
        /\ scraper_raised (W:=W) e).
Proof.
  unfold handle_update. destruct (upd_message upd) as [msg|]; [|left; by eauto].
  destruct (strip _) as [|c text]; [left; by eauto|].
  case_bool_decide; [left; rewrite send_telegram_eq; by eauto|].
  case_bool_decide; [|left; by eauto].
  unfold bind. destruct (check_for_appointments s) as [[found|e] s1] eqn:E.
  - left. destruct found; rewrite send_telegram_eq; by eauto.
  - right. exists e, s1. split; [done|]. by exists s, s1.
Qed.

Lemma handle_update_extends upd : extends_log (handle_update (W:=W) cfg upd).
Proof.
  unfold handle_update.
  destruct (upd_message upd) as [msg|];
    [|apply keeps_extends; auto with frames].
  destruct (strip _) as [|c text]; [apply keeps_extends; auto with frames|].
  case_bool_decide; [apply send_telegram_extends|].
  case_bool_decide; [|apply keeps_extends; auto with frames].
  apply extends_bind.
  - apply keeps_extends, check_for_appointments_keeps_log.
  - intros [e|]; apply send_telegram_extends.
Qed.

Lemma handle_updates_extends updates m :
  extends_log (handle_updates (W:=W) cfg updates m).
Proof.
  revert m. induction updates as [|upd updates IH]; intros m; simpl.
  - apply keeps_extends. auto with frames.
  - apply extends_bind; [apply handle_update_extends|]. intros _. apply IH.
Qed.

(** The loop returns the maximum of the prior offset and the ids of the
    batch, unless the scraper cut it short. *)
Lemma handle_updates_outcome updates m (s : sys W) :
  (exists s', handle_updates cfg updates m s = (Ret (batch_max m updates), s'))
  \/ (exists e s', handle_updates cfg updates m s = (Raise e, s')
        /\ scraper_raised (W:=W) e).
Proof.
  revert m s. induction updates as [|upd updates IH]; intros m s.
  - left. by exists s.
  - cbn [handle_updates]. rewrite batch_max_cons. unfold bind.
    destruct (handle_update_outcome upd s) as [[s' ->]|(e & s' & -> & He)].
    + apply IH.
    + right. by exists e, s'.
Qed.

Lemma poll_updates_ok n (s s1 : sys W) body :
  tg_api cfg (u "getUpdates") (GetUpdates (n + 1) 0) s = (Ret body, s1) ->
  poll_updates cfg (VInt n) s = (Ret (Some (n, body)), s1).
Proof.
  intros Hpoll. unfold poll_updates, try_except, bind, lift. simpl.
  by rewrite Hpoll.
Qed.

Lemma poll_updates_fails n (s s1 : sys W) e :
  tg_api cfg (u "getUpdates") (GetUpdates (n + 1) 0) s = (Raise e, s1) ->
  poll_updates cfg (VInt n) s = (Ret None, s1).
Proof.
  intros Hpoll. unfold poll_updates, try_except, bind, lift. simpl.
  by rewrite Hpoll.
Qed.

(** A stored offset that is not an integer makes the poll fail before any
    request. *)
Lemma poll_updates_not_int v (s : sys W) :
  (forall n, v <> VInt n) -> poll_updates cfg v s = (Ret None, s).
Proof.
  intros Hv. unfold poll_updates, try_except, bind, lift.
  destruct v; simpl; [done| |done]. by destruct (Hv n).
Qed.

(** With the credential present, a call to the API makes one request. *)
Lemma tg_api_log method p (s : sys W) :
  BOT_TOKEN cfg <> [] ->
  exists o, http_log (snd (tg_api cfg method p s))
            = Post (api_url cfg method) p o :: http_log s.
Proof.
  intros Htoken. unfold tg_api.
  destruct (BOT_TOKEN cfg) as [|b token]; [done|].
  destruct (requests_post _ _ _) as [[resp|e] w]; [|by eauto].
  destruct (negb (r_ok resp)); by eauto.
Qed.

(** The command processor once the poll has succeeded. *)
Lemma process_polled state (s s1 : sys W) n body :
  dict_get_default state K_LAST_UPDATE_ID (VInt 0) = VInt n ->
  tg_api cfg (u "getUpdates") (GetUpdates (n + 1) 0) s = (Ret body, s1) ->
  process_incoming_commands cfg state s
  = match default [] (body_result body) with
    | [] => (Ret state, s1)
    | upd :: rest =>
        match handle_updates cfg (upd :: rest) n s1 with
        | (Ret m, s') => (Ret (<[K_LAST_UPDATE_ID := VInt m]> state), s')
        | (Raise e, s') => (Raise e, s')
        end
    end.
Proof.
  intros Hprior Hpoll. unfold process_incoming_commands. rewrite Hprior.
  unfold bind at 1. rewrite (poll_updates_ok n s s1 body Hpoll).
  by destruct (default [] (body_result body)).
Qed.

Lemma process_poll_failed state (s s1 : sys W) n e :
  dict_get_default state K_LAST_UPDATE_ID (VInt 0) = VInt n ->
  tg_api cfg (u "getUpdates") (GetUpdates (n + 1) 0) s = (Raise e, s1) ->
  process_incoming_commands cfg state s = (Ret state, s1).
Proof.
  intros Hprior Hpoll. unfold process_incoming_commands. rewrite Hprior.
  unfold bind. by rewrite (poll_updates_fails n s s1 e Hpoll).
Qed.

(** The first request of a run is the poll, one past the stored offset. *)
Lemma process_first_request state n (s : sys W) :
  dict_get_default state K_LAST_UPDATE_ID (VInt 0) = VInt n ->
  BOT_TOKEN cfg <> [] ->
  exists l o,
    http_log (snd (process_incoming_commands cfg state s))
    = l ++ Post (api_url cfg (u "getUpdates")) (GetUpdates (n + 1) 0) o
           :: http_log s.
Proof.
  intros Hprior Htoken.
  destruct (tg_api_log (u "getUpdates") (GetUpdates (n + 1) 0) s Htoken)
    as [o Ho].
  destruct (tg_api cfg (u "getUpdates") (GetUpdates (n + 1) 0) s)
    as [[body|e'] s3] eqn:Hnext; simpl in Ho.
  - rewrite (process_polled state s s3 n body Hprior Hnext).
    destruct (default [] (body_result body)) as [|upd updates].
    + exists [], o. by rewrite <- Ho.
    + destruct (handle_updates_extends (upd :: updates) n s3) as [l Hl].
      exists l, o. rewrite <- Ho, <- Hl.
      by destruct (handle_updates cfg (upd :: updates) n s3) as [[m|e''] s'].
  - rewrite (process_poll_failed state s s3 n e' Hprior Hnext).
    exists [], o. by rewrite <- Ho.
Qed.

(** The command processor returns, unless the scraper cut it short. *)
Lemma process_outcome state (s : sys W) :
  (exists state' s', process_incoming_commands cfg state s = (Ret state', s'))
  \/ (exists e s', process_incoming_commands cfg state s = (Raise e, s')
         /\ scraper_raised (W:=W) e).
Proof.
  destruct (dict_get_default state K_LAST_UPDATE_ID (VInt 0)) as [|n|t]
    eqn:Hprior.
  1,3: left; exists state, s; unfold process_incoming_commands;
       rewrite Hprior; unfold bind; by rewrite poll_updates_not_int.
  destruct (tg_api cfg (u "getUpdates") (GetUpdates (n + 1) 0) s)
    as [[body|e] s1] eqn:Hpoll.
  - rewrite (process_polled state s s1 n body Hprior Hpoll).
    destruct (default [] (body_result body)) as [|upd rest]; [left; by eauto|].
    destruct (handle_updates_outcome (upd :: rest) n s1)
      as [[s' ->]|(e & s' & -> & He)]; [left; by eauto|].
    right. exists e, s'. by split.
  - left. exists state, s1. by apply (process_poll_failed state s s1 n e).
Qed.

End Commands.

(** C4. After a successful poll the command processor either stores, as
    [last_update_id], the maximum of the prior value and every update id
    of the batch, which is never below the prior value, whatever the
    order of the ids; or it is cut short by an exception that came out of
    the scraper and stores nothing. *)
Theorem offset_is_batch_max :
  forall (W : Type) (R : Runtime W) (cfg : Config)
         (state : gmap pystr value) (s s1 : sys W) n body,
    dict_get_default state K_LAST_UPDATE_ID (VInt 0) = VInt n ->
    tg_api cfg (u "getUpdates") (GetUpdates (n + 1) 0) s = (Ret body, s1) ->
    let updates := default [] (body_result body) in
    (exists state' s',
       process_incoming_commands cfg state s = (Ret state', s')
       /\ dict_get_default state' K_LAST_UPDATE_ID (VInt 0)
          = VInt (batch_max n updates)
       /\ n <= batch_max n updates
       /\ (updates <> [] ->
           state' = <[K_LAST_UPDATE_ID := VInt (batch_max n updates)]> state)
       /\ (updates = [] -> state' = state))
    \/ (exists e s',
          process_incoming_commands cfg state s = (Raise e, s')
          /\ scraper_raised (W:=W) e).
Proof.
  intros W R cfg state s s1 n body Hprior Hpoll updates.
  rewrite (process_polled cfg state s s1 n body Hprior Hpoll).
  fold updates. destruct updates as [|upd rest].
  - left. exists state, s1. by repeat split.
  - destruct (handle_updates_outcome cfg (upd :: rest) n s1)
      as [[s' ->]|(e & s' & -> & He)].
    + left. eexists _, s'. split; [reflexivity|].
      split; [unfold dict_get_default; by rewrite lookup_insert_eq|].
      split; [apply batch_max_ge|]. split; [done|]. intros [=].
    + right. exists e, s'. split; [reflexivity|exact He].
Qed.

(** C5. When the poll raises, the command processor returns the record as
    it was, having sent nothing; a later run on this record polls with
    the same offset. *)
Theorem poll_failure_keeps_state :
  forall (W : Type) (R : Runtime W) (cfg : Config)
         (state : gmap pystr value) (s s1 : sys W) n e,
    dict_get_default state K_LAST_UPDATE_ID (VInt 0) = VInt n ->
    tg_api cfg (u "getUpdates") (GetUpdates (n + 1) 0) s = (Raise e, s1) ->
    process_incoming_commands cfg state s = (Ret state, s1)
    /\ sent_messages (http_log s1) = sent_messages (http_log s)
    /\ forall s2 : sys W,
         BOT_TOKEN cfg <> [] ->
         exists l o,
           http_log (snd (process_incoming_commands cfg state s2))
           = l ++ Post (api_url cfg (u "getUpdates"))
                       (GetUpdates (n + 1) 0) o :: http_log s2.
Proof.
  intros W R cfg state s s1 n e Hprior Hpoll. split; [|split].
  - by apply (process_poll_failed cfg state s s1 n e).
  - unfold tg_api, raise in Hpoll.
    destruct (BOT_TOKEN cfg) as [|b token]; [by injection Hpoll as _ <-|].
    destruct (requests_post _ _ _) as [[resp|e'] w].
    + destruct (negb (r_ok resp)); by injection Hpoll as _ <-.
    + by injection Hpoll as _ <-.
  - intros s2 Htoken. by apply process_first_request.
Qed.

Lemma offset_is_batch_max_witness :
  exists s',
    process_incoming_commands (Fake.config (u "42")) ∅
      (Fake.start
         (Fake.with_posts
            [Fake.ok_response
               (Some [Fake.bare_update 5; Fake.bare_update 3;
                      Fake.bare_update 7])]
            (Fake.site [])))
    = (Ret {[ K_LAST_UPDATE_ID := VInt 7 ]}, s').
Proof.
  set (cfg := Fake.config (u "42")).
  set (batch := [Fake.bare_update 5; Fake.bare_update 3; Fake.bare_update 7]).
  set (s := Fake.start
              (Fake.with_posts [Fake.ok_response (Some batch)] (Fake.site []))).
  assert (dict_get_default ∅ K_LAST_UPDATE_ID (VInt 0) = VInt 0) as Hprior
    by reflexivity.
  assert (tg_api cfg (u "getUpdates") (GetUpdates (0 + 1) 0) s
          = (Ret {| body_result := Some batch |},
             snd (tg_api cfg (u "getUpdates") (GetUpdates (0 + 1) 0) s)))
    as Hpoll by (vm_compute; reflexivity).
  pose proof (offset_is_batch_max Fake.t Fake.runtime cfg ∅ s _ 0 _
                Hprior Hpoll) as Hmax.
  cbv zeta in Hmax.
  destruct Hmax as [(state' & s' & Hrun & _ & _ & Hset & _)
                   |(e & s' & Hrun & _)].
  - exists s'. rewrite Hrun, Hset by discriminate. reflexivity.
  - exfalso. vm_compute in Hrun. discriminate Hrun.
Defined.

Lemma poll_failure_keeps_state_witness :
  fst (process_incoming_commands (Fake.config (u "42"))
         {[ K_LAST_UPDATE_ID := VInt 7 ]} (Fake.start (Fake.site [])))
  = Ret {[ K_LAST_UPDATE_ID := VInt 7 ]}
  /\ http_log (snd (process_incoming_commands (Fake.config (u "42"))
                     {[ K_LAST_UPDATE_ID := VInt 7 ]}
                     (Fake.start (Fake.site []))))
     = [Post (api_url (Fake.config (u "42")) (u "getUpdates"))
             (GetUpdates 8 0) (Raise (LibraryError (u "ConnectionError")))].
Proof.
  set (cfg := Fake.config (u "42")).
  set (state := {[ K_LAST_UPDATE_ID := VInt 7 ]} : gmap pystr value).
  set (s := Fake.start (Fake.site [])).
  assert (dict_get_default state K_LAST_UPDATE_ID (VInt 0) = VInt 7) as Hprior
    by reflexivity.
  assert (tg_api cfg (u "getUpdates") (GetUpdates (7 + 1) 0) s
          = (Raise (LibraryError (u "ConnectionError")),
             snd (tg_api cfg (u "getUpdates") (GetUpdates (7 + 1) 0) s)))
    as Hpoll by (vm_compute; reflexivity).
  destruct (poll_failure_keeps_state Fake.t Fake.runtime cfg state s _ 7 _
              Hprior Hpoll) as (Hrun & _ & _).
  rewrite Hrun. split; [reflexivity|]. vm_compute. reflexivity.
Defined.

(** A batch whose ids arrive out of order and whose second message asks
    for a check: the reply goes to the sender and the offset is the
    maximum. *)
Example commands_out_of_order :
  let s := Fake.start
             (Fake.with_posts
                [Fake.ok_response
                   (Some [Fake.bare_update 5;
                          Fake.text_update 3 77 " /Check ";
                          Fake.text_update 7 77 "hello"]);
                 Fake.ok_response None]
                (Fake.site [Some (u "20260201")])) in
  let cfg := Fake.config (u "42") in
  fst (process_incoming_commands cfg ∅ s)
  = Ret {[ K_LAST_UPDATE_ID := VInt 7 ]}
  /\ sent_messages (http_log (snd (process_incoming_commands cfg ∅ s)))
     = [(u "77", check_text cfg 20260201)].
Proof. split; vm_compute; reflexivity. Qed.

(** ** The state store and the whole run *)

Section Orchestrator.

Context {W : Type} `{Runtime W}.
Variable cfg : Config.

Lemma load_state_returns (s : sys W) :
  exists state s', load_state s = (Ret state, s').
Proof.
  unfold load_state, try_except, perform, ret.
  destruct (open_json_load STATE_FILE (world s)) as [[state|e] w]; by eauto.
Qed.

Lemma load_state_failed (s : sys W) e w :
  open_json_load STATE_FILE (world s) = (Raise e, w) ->
  load_state s = (Ret ∅, Sys w (http_log s)).
Proof.
  intros Hload. unfold load_state, try_except, perform. by rewrite Hload.
Qed.

(** The heartbeat returns, unless the clock raised. *)
Lemma heartbeat_outcome state (s : sys W) :
  (exists state' s', maybe_send_daily_heartbeat cfg state s = (Ret state', s'))
  \/ (exists e w, datetime_now (TIMEZONE cfg) (world s) = (Raise e, w)
        /\ maybe_send_daily_heartbeat cfg state s
           = (Raise e, Sys w (http_log s))).
Proof.
  destruct (decide (DEFAULT_CHAT_ID cfg = [])) as [E|E].
  { left. rewrite heartbeat_no_recipient by done. by eauto. }
  destruct (datetime_now (TIMEZONE cfg) (world s)) as [[now|e] w] eqn:Hnow.
  - left. rewrite (heartbeat_eq cfg state s now w E Hnow).
    destruct (py_eq _ _); [by eauto|]. destruct (in_window cfg now); by eauto.
  - right. exists e, w. split; [done|]. by apply heartbeat_clock_fails.
Qed.

(** The scheduled alert returns, unless the scraper raised. *)
Lemma scheduled_alert_outcome state (s : sys W) :
  (exists state' s', scheduled_alert cfg state s = (Ret state', s'))
  \/ (exists e s', scheduled_alert cfg state s = (Raise e, s')
        /\ scraper_raised (W:=W) e).
Proof.
  destruct (check_for_appointments s) as [[found|e] s1] eqn:Hcheck.
  - left. destruct found as [d|].
    + destruct (decide (d < MY_CURRENT_APPOINTMENT cfg)) as [Hlt|Hge];
        [destruct (decide (str_of_int d = py_str
                     (dict_get state K_LAST_NOTIFIED_EARLIEST)))
           as [Hsame|Hnew]|].
      2:{ rewrite (scheduled_alert_due cfg state s s1 d); by eauto. }
      all: rewrite (scheduled_alert_not_due cfg state s s1 (Some d));
        [by eauto|done|].
      all: intros (d' & [= <-] & ? & ?); done.
    + rewrite (scheduled_alert_not_due cfg state s s1 None);
        [by eauto|done|]. by intros (d & ? & _).
  - right. exists e, s1. split; [by apply scheduled_alert_raises|].
    by exists s, s1.
Qed.

(** A run ends normally unless the scraper, the clock or the write of the
    state file raised: neither a failed load, nor a failed poll, nor a
    failed notification ends it. *)
Lemma main_outcome (s s' : sys W) r :
  BOT_TOKEN cfg <> [] ->
  main cfg s = (r, s') ->
  r = Ret tt
  \/ exists e, r = Raise e
       /\ (scraper_raised (W:=W) e
           \/ (exists w0 w1,
                 datetime_now (TIMEZONE cfg) w0 = (Raise e, w1))
           \/ (exists state w0 w1,
                 open_json_dump STATE_FILE state w0 = (Raise e, w1))).
Proof.
  intros Htoken. unfold main.
  destruct (BOT_TOKEN cfg) as [|b token]; [done|].
  destruct (load_state_returns s) as (state0 & s0 & Hload).
  unfold bind at 1. rewrite Hload.
  unfold bind at 1.
  destruct (process_outcome cfg state0 s0)
    as [(state1 & s1 & ->)|(e & s1 & -> & He)];
    [|intros [= <- <-]; right; exists e; split; [done|by left]].
  unfold bind at 1.
  destruct (heartbeat_outcome state1 s1)
    as [(state2 & s2 & ->)|(e & w & Hnow & ->)];
    [|intros [= <- <-]; right; exists e; split; [done|];
      right; left; by eauto].
  unfold bind at 1.
  destruct (scheduled_alert_outcome state2 s2)
    as [(state3 & s3 & ->)|(e & s3 & -> & He)];
    [|intros [= <- <-]; right; exists e; split; [done|by left]].
  unfold save_state, perform.
  destruct (open_json_dump STATE_FILE state3 (world s3)) as [[[]|e] w] eqn:Hdump;
    intros [= <- <-].
  - by left.
  - right. exists e. split; [done|]. right; right. by eauto.
Qed.

End Orchestrator.

(** C8. [load_state] never raises, and gives the empty record whenever
    reading or parsing the file fails.  From the empty record the rest of
    the run takes the first-run defaults: the poll starts at offset 1,
    the heartbeat is due inside its window, every date below the
    threshold is new; and none of the three steps raises on account of
    the missing fields: the only exceptions are those of the scraper and
    of the clock. *)
Theorem load_state_never_raises :
  forall (W : Type) (R : Runtime W) (cfg : Config) (s : sys W),
    (exists state s', load_state s = (Ret state, s'))
    /\ (forall e w,
          open_json_load STATE_FILE (world s) = (Raise e, w) ->
          load_state s = (Ret ∅, Sys w (http_log s)))
    /\ (BOT_TOKEN cfg <> [] ->
        exists l o,
          http_log (snd (process_incoming_commands cfg ∅ s))
          = l ++ Post (api_url cfg (u "getUpdates")) (GetUpdates 1 0) o
                 :: http_log s)
    /\ (forall now w,
          DEFAULT_CHAT_ID cfg <> [] ->
          datetime_now (TIMEZONE cfg) (world s) = (Ret now, w) ->
          in_window cfg now = true ->
          fst (maybe_send_daily_heartbeat cfg ∅ s)
          = Ret {[ K_LAST_PING_DATE := VStr (isoformat now) ]})
    /\ (forall d s1,
          check_for_appointments s = (Ret (Some d), s1) ->
          d < MY_CURRENT_APPOINTMENT cfg ->
          fst (scheduled_alert cfg ∅ s)
          = Ret {[ K_LAST_NOTIFIED_EARLIEST := VInt d ]})
    /\ ((exists state' s', process_incoming_commands cfg ∅ s = (Ret state', s'))
        \/ (exists e s', process_incoming_commands cfg ∅ s = (Raise e, s')
              /\ scraper_raised (W:=W) e))
    /\ ((exists state' s', maybe_send_daily_heartbeat cfg ∅ s = (Ret state', s'))
        \/ (exists e w, datetime_now (TIMEZONE cfg) (world s) = (Raise e, w)
              /\ maybe_send_daily_heartbeat cfg ∅ s
                 = (Raise e, Sys w (http_log s))))
    /\ ((exists state' s', scheduled_alert cfg ∅ s = (Ret state', s'))
        \/ (exists e s', scheduled_alert cfg ∅ s = (Raise e, s')
              /\ scraper_raised (W:=W) e)).
Proof.
  intros W R cfg s.
  split; [apply load_state_returns|].
  split; [apply load_state_failed|].
  split; [intros Htoken; by apply (process_first_request cfg ∅ 0 s)|].
  split.
  { intros now w Hchat Hnow Hwin.
    rewrite (heartbeat_eq cfg ∅ s now w Hchat Hnow), Hwin.
    by rewrite (proj2 (py_eq_false _ _)). }
  split.
  { intros d s1 Hcheck Hlt.
    rewrite (scheduled_alert_due cfg ∅ s s1 d); [done..|].
    apply str_of_int_not_None. }
  split; [apply process_outcome|].
  split; [apply heartbeat_outcome|apply scheduled_alert_outcome].
Qed.

Lemma load_state_never_raises_witness :
  load_state (Fake.start (Fake.site [Some (u "20260201")]))
  = (Ret ∅, Fake.start (Fake.site [Some (u "20260201")]))
  /\ (exists l o,
        http_log (snd (process_incoming_commands (Fake.config (u "42")) ∅
                         (Fake.start (Fake.site [Some (u "20260201")]))))
        = l ++ [Post (api_url (Fake.config (u "42")) (u "getUpdates"))
                     (GetUpdates 1 0) o])
  /\ fst (maybe_send_daily_heartbeat (Fake.config (u "42")) ∅
            (Fake.start (Fake.site [Some (u "20260201")])))
     = Ret {[ K_LAST_PING_DATE := VStr (u "2026-02-01") ]}
  /\ fst (scheduled_alert (Fake.config (u "42")) ∅
            (Fake.start (Fake.site [Some (u "20260201")])))
     = Ret {[ K_LAST_NOTIFIED_EARLIEST := VInt 20260201 ]}.
Proof.
  set (s := Fake.start (Fake.site [Some (u "20260201")])).
  destruct (load_state_never_raises Fake.t Fake.runtime
              (Fake.config (u "42")) s)
    as (_ & Hload & Hpoll & Hbeat & Halert & _).
  split; [|split; [|split]].
  - apply (Hload (LibraryError (u "FileNotFoundError"))). reflexivity.
  - apply Hpoll. discriminate.
  - apply (Hbeat Fake.morning (Fake.site [Some (u "20260201")]));
      [discriminate|reflexivity..].
  - apply (Halert 20260201 s); [vm_compute; reflexivity|reflexivity].
Defined.

(** A whole first run: no state file, one date below the threshold, the
    API accepting everything.  The run sends the heartbeat and the alert
    and writes both to the state file. *)
Example first_run :
  let cfg := Fake.config (u "42") in
  let s := Fake.start
             (Fake.with_posts
                [Fake.ok_response (Some []); Fake.ok_response None;
                 Fake.ok_response None]
                (Fake.site [Some (u "20260301"); Some (u "20260201")])) in
  fst (main cfg s) = Ret tt
  /\ Fake.saved (world (snd (main cfg s)))
     = Some (<[ K_LAST_NOTIFIED_EARLIEST := VInt 20260201 ]>
               {[ K_LAST_PING_DATE := VStr (u "2026-02-01") ]})
  /\ sent_messages (http_log (snd (main cfg s)))
     = [(u "42", alert_text cfg 20260201);
        (u "42", heartbeat_text Fake.morning)].
Proof. repeat split; vm_compute; reflexivity. Qed.

(** The same run with every request to the API failing still scrapes and
    writes the state file. *)
Example first_run_offline :
  let cfg := Fake.config (u "42") in
  let s := Fake.start (Fake.site [Some (u "20260201")]) in
  fst (main cfg s) = Ret tt
  /\ Fake.saved (world (snd (main cfg s)))
     = Some (<[ K_LAST_NOTIFIED_EARLIEST := VInt 20260201 ]>
               {[ K_LAST_PING_DATE := VStr (u "2026-02-01") ]})
  /\ delivered_messages (http_log (snd (main cfg s))) = [].
Proof. repeat split; vm_compute; reflexivity. Qed.

(** The de-duplication scenarios of the specification. *)
Example alert_not_repeated :
  let cfg := Fake.config (u "42") in
  let state : gmap pystr value :=
    {[ K_LAST_NOTIFIED_EARLIEST := VInt 20260101 ]} in
  scheduled_alert cfg state (Fake.start (Fake.site [Some (u "20260101")]))
  = (Ret state, Fake.start (Fake.site [Some (u "20260101")])).
Proof. vm_compute. reflexivity. Qed.

Example alert_for_new_date :
  let cfg := Fake.config (u "42") in
  let state : gmap pystr value :=
    {[ K_LAST_NOTIFIED_EARLIEST := VInt 20260101 ]} in
  let s := Fake.start (Fake.site [Some (u "20251231")]) in
  fst (scheduled_alert cfg state s)
  = Ret {[ K_LAST_NOTIFIED_EARLIEST := VInt 20251231 ]}
  /\ sent_messages (http_log (snd (scheduled_alert cfg state s)))
     = [(u "42", alert_text cfg 20251231)].
Proof. split; vm_compute; reflexivity. Qed.

Example no_alert_for_later_date :
  scheduled_alert (Fake.config (u "42")) ∅
    (Fake.start (Fake.site [Some (u "20260301")]))
  = (Ret ∅, Fake.start (Fake.site [Some (u "20260301")])).
Proof. vm_compute. reflexivity. Qed.

(** C9. The notifier does nothing for an empty recipient and never
    raises: whatever the HTTP call does (a network error, a non-success
    answer, an undecodable body, a missing credential), [send_telegram]
    returns normally.  Hence no failed notification ends a run: a run ends
    normally unless the scraper, the clock or the write of the state file
    raised. *)
Theorem send_telegram_never_raises :
  forall (W : Type) (R : Runtime W) (cfg : Config) (text : pystr) (s : sys W),
    send_telegram cfg [] text s = (Ret tt, s)
    /\ (forall chat_id, fst (send_telegram cfg chat_id text s) = Ret tt)
    /\ (forall r s',
          BOT_TOKEN cfg <> [] ->
          main cfg s = (r, s') ->
          r = Ret tt
          \/ exists e, r = Raise e
               /\ (scraper_raised (W:=W) e
                   \/ (exists w0 w1,
                         datetime_now (TIMEZONE cfg) w0 = (Raise e, w1))
                   \/ (exists state w0 w1,
                         open_json_dump STATE_FILE state w0 = (Raise e, w1)))).
Proof.
  intros W R cfg text s. split; [reflexivity|]. split.
  - intros chat_id. by rewrite send_telegram_eq.
  - intros r s' Htoken Hmain. by apply (main_outcome cfg s s').
Qed.

Lemma send_telegram_never_raises_witness :
  fst (main (Fake.config (u "42"))
         (Fake.start (Fake.site [Some (u "20260201")])))
  = Ret tt.
Proof.
  set (cfg := Fake.config (u "42")).
  set (s := Fake.start (Fake.site [Some (u "20260201")])).
  assert (BOT_TOKEN cfg <> []) as Htoken by discriminate.
  destruct (send_telegram_never_raises Fake.t Fake.runtime cfg [] s)
    as (_ & _ & Hmain).
  destruct (Hmain (fst (main cfg s)) (snd (main cfg s)) Htoken
              (surjective_pairing _))
    as [Hret|(e & Hraise & _)].
  - exact Hret.
  - exfalso. vm_compute in Hraise. discriminate Hraise.
Defined.

(** * Further properties *)

(** ** Integers and their text, there and back *)




Lemma uint_digits_decimal d :
  forallb Unicode.is_decimal (uint_digits d) = true.
Proof. induction d; simpl; try done; by rewrite IHd. Qed.

Lemma decimal_value_of_uint_acc d acc :
  decimal_value (Z.pos acc) (uint_digits d)
  = Some (Z.pos (Pos.of_uint_acc d acc)).
Proof.
  revert acc. induction d; intros acc; cbn [uint_digits decimal_value Pos.of_uint_acc];
    [done|..].
  all: match goal with
       | |- context [Unicode.decimal ?c] =>
           let v := eval vm_compute in (Unicode.decimal c) in
           change (Unicode.decimal c) with v
       end.
  all: cbv iota beta.
  all: match goal with
       | |- decimal_value ?z _ = Some (Z.pos (Pos.of_uint_acc _ ?p)) =>
           replace z with (Z.pos p) by lia
       end.
  all: apply IHd.
Qed.

Lemma decimal_value_of_uint d :
  decimal_value 0 (uint_digits d) = Some (Z.of_N (Pos.of_uint d)).
Proof.
  induction d; cbn [uint_digits decimal_value Pos.of_uint]; [done|..].
  all: match goal with
       | |- context [Unicode.decimal ?c] =>
           let v := eval vm_compute in (Unicode.decimal c) in
           change (Unicode.decimal c) with v
       end.
  all: cbv iota beta.
  1: exact IHd.
  all: match goal with
       | |- decimal_value ?z _ = Some (Z.of_N (N.pos (Pos.of_uint_acc _ ?p))) =>
           change z with (Z.pos p)
       end.
  all: apply decimal_value_of_uint_acc.
Qed.

Lemma str_of_int_nonneg_digits n :
  0 <= n -> exists d, str_of_int n = uint_digits d /\ d <> Nil
                      /\ Z.of_N (Pos.of_uint d) = n.
Proof.
  intros Hn. unfold str_of_int. destruct n as [|p|p]; [| |lia].
  - exists (D0 Nil). by repeat split.
  - exists (Pos.to_uint p). split; [done|].
    split; [apply DecimalPos.Unsigned.to_uint_nonnil|].
    by rewrite DecimalPos.Unsigned.of_to.
Qed.

(** X7. The text of a non-negative integer passes the digit test
    and parses back to the integer, as long as it is within the length
    limit of the conversion. *)
Theorem int_of_str_of_int :
  forall n : Z,
    0 <= n ->
    (length (str_of_int n) <= int_max_str_digits)%nat ->
    isdigit (str_of_int n) = true /\ py_int (str_of_int n) = Ret n.
Proof.
  intros n Hn Hlen.
  destruct (str_of_int_nonneg_digits n Hn) as (d & Hd & Hnil & Hval).
  rewrite Hd in *. split.
  - unfold isdigit. destruct (uint_digits d) eqn:E.
    + destruct d; done.
    + rewrite <- E. apply forallb_forall. intros c Hc.
      unfold Unicode.is_digit.
      pose proof (uint_digits_decimal d) as Hdec.
      rewrite forallb_forall in Hdec. by rewrite (Hdec c Hc).
  - destruct (py_int_decimal (uint_digits d)) as (m & Hm & Hint).
    + destruct d; done.
    + apply uint_digits_decimal.
    + done.
    + rewrite Hint. rewrite decimal_value_of_uint in Hm.
      injection Hm as <-. by rewrite Hval.
Qed.

Lemma int_of_str_of_int_witness :
  isdigit (str_of_int 20260210) = true
  /\ py_int (str_of_int 20260210) = Ret 20260210.
Proof.
  apply int_of_str_of_int; [lia|]. vm_compute. lia.
Defined.

(** ** The Bot API call *)

(** X1. Without a credential [tg_api] raises before any request and
    leaves the system as it is.  With one it makes exactly one request, to
    the method's URL with the given parameters, and it returns a body
    exactly when the answer is a success whose body decodes; a network
    error, a non-success answer and an undecodable body all raise. *)
Theorem tg_api_one_request :
  forall (W : Type) (R : Runtime W) (cfg : Config) method p (s : sys W),
    (BOT_TOKEN cfg = [] ->
     tg_api cfg method p s
     = (Raise (RuntimeError (u "Missing TELEGRAM_BOT_TOKEN")), s))
    /\ (BOT_TOKEN cfg <> [] ->
        snd (tg_api cfg method p s)
        = Sys (snd (requests_post (api_url cfg method) p (world s)))
              (Post (api_url cfg method) p
                    (fst (requests_post (api_url cfg method) p (world s)))
                 :: http_log s)
        /\ forall body,
             fst (tg_api cfg method p s) = Ret body
             <-> exists resp,
                   fst (requests_post (api_url cfg method) p (world s))
                   = Ret resp
                   /\ r_ok resp = true /\ r_json resp = Ret body).
Proof.
  intros W R cfg method p s. unfold tg_api, raise. split.
  - by intros ->.
  - intros Htoken. destruct (BOT_TOKEN cfg) as [|b token]; [done|].
    destruct (requests_post _ _ _) as [[resp|e] w]; simpl.
    + destruct (r_ok resp) eqn:Hok; simpl.
      * split; [done|]. intros body. split.
        -- intros Hjson. by exists resp.
        -- by intros (resp' & [= <-] & _ & Hjson).
      * split; [done|]. intros body. split; [done|].
        intros (resp' & [= <-] & Hok' & _). congruence.
    + split; [done|]. intros body. split; [done|].
      by intros (resp' & [=] & _).
Qed.

Lemma tg_api_one_request_witness :
  tg_api {| MY_CURRENT_APPOINTMENT := 20260210; BOT_TOKEN := [];
            DEFAULT_CHAT_ID := u "42"; TIMEZONE := u "Europe/Berlin";
            HEARTBEAT_HOUR := 9 |}
         (u "getUpdates") (GetUpdates 1 0)
         (Fake.start (Fake.with_posts [Fake.ok_response None] (Fake.site [])))
  = (Raise (RuntimeError (u "Missing TELEGRAM_BOT_TOKEN")),
     Fake.start (Fake.with_posts [Fake.ok_response None] (Fake.site [])))
  /\ http_log (snd (tg_api (Fake.config (u "42")) (u "getUpdates")
                      (GetUpdates 1 0)
                      (Fake.start (Fake.with_posts [Fake.error_response]
                                     (Fake.site [])))))
     = [Post (api_url (Fake.config (u "42")) (u "getUpdates"))
             (GetUpdates 1 0) Fake.error_response].
Proof.
  split.
  - apply (tg_api_one_request Fake.t Fake.runtime). reflexivity.
  - assert (BOT_TOKEN (Fake.config (u "42")) <> []) as Htoken by discriminate.
    destruct (proj2 (tg_api_one_request Fake.t Fake.runtime
                       (Fake.config (u "42")) (u "getUpdates") (GetUpdates 1 0)
                       (Fake.start (Fake.with_posts [Fake.error_response]
                                      (Fake.site []))))
                    Htoken) as [Hlog _].
    rewrite Hlog. reflexivity.
Defined.

(** ** The browser session around the scrape *)

Section Session.

Context {W : Type} `{Runtime W}.

Lemma decimal_in_nonneg c rs d :
  Unicode.decimal_in c rs = Some d -> 0 <= d.
Proof.
  induction rs as [|r rs IH]; simpl; [done|].
  destruct (Unicode.in_range c r); [|done]. intros [= <-].
  apply N2Z.is_nonneg.
Qed.

Lemma decimal_value_nonneg s acc n :
  0 <= acc -> decimal_value acc s = Some n -> 0 <= n.
Proof.
  revert acc. induction s as [|c s IH]; intros acc Hacc; simpl.
  - by intros [= <-].
  - destruct (Unicode.decimal c) as [d|] eqn:Hd; [|done].
    apply decimal_in_nonneg in Hd. apply IH. lia.
Qed.

Lemma py_int_nonneg s n : py_int s = Ret n -> 0 <= n.
Proof.
  unfold py_int. destruct (_ <? _)%nat; [done|]. destruct s; [done|].
  destruct (decimal_value 0 _) as [m|] eqn:Hm; [|done].
  intros [= <-]. by apply (decimal_value_nonneg _ 0 m) in Hm.
Qed.

Lemma collect_dates_nonneg inputs found (s s' : sys W) found' :
  collect_dates inputs found s = (Ret found', s') ->
  (forall x, x ∈ found -> 0 <= x) ->
  forall x, x ∈ found' -> 0 <= x.
Proof.
  revert found s. induction inputs as [|inp rest IH]; intros found s.
  - intros [= <- <-]. done.
  - cbn [collect_dates]. unfold bind at 1.
    destruct (perform _ s) as [[val|e] s1]; [|done].
    assert (forall found1 : gset Z,
              (forall x, x ∈ found1 -> 0 <= x) ->
              collect_dates rest found1 s1 = (Ret found', s') ->
              forall x, x ∈ found' -> 0 <= x) as Hrest.
    { intros found1 Hfound1 Hrun. by apply (IH found1 s1). }
    destruct val as [[|c v]|].
    + intros Hrun Hfound. by apply (Hrest found).
    + destruct (isdigit (c :: v)).
      * unfold bind at 1. unfold bind at 1, lift.
        destruct (py_int (c :: v)) as [n|e] eqn:Hint; [|done].
        intros Hrun Hfound. apply (Hrest ({[n]} ∪ found)); [|done].
        intros x Hx. apply elem_of_union in Hx as [Hx|Hx]; [|by apply Hfound].
        apply elem_of_singleton in Hx as ->. by apply py_int_nonneg in Hint.
      * intros Hrun Hfound. by apply (Hrest found).
    + intros Hrun Hfound. by apply (Hrest found).
Qed.

Lemma read_earliest_nonneg (s s' : sys W) d :
  read_earliest s = (Ret (Some d), s') -> 0 <= d.
Proof.
  unfold read_earliest. unfold bind at 1.
  destruct (perform _ s) as [[inputs|e] s1]; [|done].
  unfold bind at 1.
  destruct (collect_dates inputs ∅ s1) as [[found|e] s2] eqn:Hcollect; [|done].
  case_bool_decide; [done|]. unfold bind, lift, ret.
  destruct (py_min found) as [m|e] eqn:Hmin; [|done].
  intros [= <- <-]. apply py_min_spec in Hmin as [Hin _].
  apply (collect_dates_nonneg _ _ _ _ _ Hcollect); [|done].
  intros x Hx. by apply not_elem_of_empty in Hx.
Qed.

Lemma navigate_nonneg (s s' : sys W) d :
  navigate s = (Ret (Some d), s') -> 0 <= d.
Proof.
  unfold navigate. unfold bind at 1.
  destruct (open_suggestions s) as [[[]|e] s1]; [|done].
  unfold bind at 1, try_except, bind at 1.
  destruct (perform _ s1) as [[[]|e] s2]; simpl; [|done].
  apply read_earliest_nonneg.
Qed.

(** The scraper unfolded around its guarded part. *)
Lemma check_for_appointments_teardown (s sa sb s0 s1 s2 s3 : sys W) r rc rx :
  perform sync_playwright_enter s = (Ret tt, sa) ->
  perform chromium_launch sa = (Ret tt, sb) ->
  perform browser_new_page sb = (Ret tt, s0) ->
  try_except navigate (fun _ => ret None) s0 = (r, s1) ->
  perform browser_close s1 = (rc, s2) ->
  perform sync_playwright_exit s2 = (rx, s3) ->
  check_for_appointments s = (after_teardown r rc rx, s3).
Proof.
  intros Henter Hlaunch Hpage Hnav Hclose Hexit.
  unfold check_for_appointments.
  unfold bind at 1. rewrite Henter.
  unfold try_finally at 1. unfold bind at 1. rewrite Hlaunch.
  unfold bind at 1. rewrite Hpage.
  unfold try_finally at 1. rewrite Hnav, Hclose.
  destruct rc as [[]|ec]; rewrite Hexit; by destruct rx as [[]|ex].
Qed.

Lemma check_enter_fails (s sa : sys W) e :
  perform sync_playwright_enter s = (Raise e, sa) ->
  check_for_appointments s = (Raise e, sa).
Proof.
  intros Henter. unfold check_for_appointments, bind. by rewrite Henter.
Qed.

Lemma check_launch_fails (s sa sb sx : sys W) e rx :
  perform sync_playwright_enter s = (Ret tt, sa) ->
  perform chromium_launch sa = (Raise e, sb) ->
  perform sync_playwright_exit sb = (rx, sx) ->
  check_for_appointments s = (after_teardown (Raise e) (Ret tt) rx, sx).
Proof.
  intros Henter Hlaunch Hexit. unfold check_for_appointments.
  unfold bind at 1. rewrite Henter.
  unfold try_finally at 1. unfold bind at 1. rewrite Hlaunch, Hexit.
  by destruct rx as [[]|ex].
Qed.

Lemma check_new_page_fails (s sa sb sc sx : sys W) e rx :
  perform sync_playwright_enter s = (Ret tt, sa) ->
  perform chromium_launch sa = (Ret tt, sb) ->
  perform browser_new_page sb = (Raise e, sc) ->
  perform sync_playwright_exit sc = (rx, sx) ->
  check_for_appointments s = (after_teardown (Raise e) (Ret tt) rx, sx).
Proof.
  intros Henter Hlaunch Hpage Hexit. unfold check_for_appointments.
  unfold bind at 1. rewrite Henter.
  unfold try_finally at 1. unfold bind at 1. rewrite Hlaunch.
  unfold bind at 1. rewrite Hpage, Hexit.
  by destruct rx as [[]|ex].
Qed.

Lemma check_for_appointments_nonneg (s s' : sys W) d :
  check_for_appointments s = (Ret (Some d), s') -> 0 <= d.
Proof.
  destruct (perform sync_playwright_enter s) as [[[]|e] sa] eqn:Henter.
  2:{ by rewrite (check_enter_fails s sa e). }
  destruct (perform chromium_launch sa) as [[[]|e] sb] eqn:Hlaunch.
  2:{ destruct (perform sync_playwright_exit sb) as [rx sx] eqn:Hexit.
      rewrite (check_launch_fails s sa sb sx e rx); [|done..].
      by destruct rx as [[]|ex]. }
  destruct (perform browser_new_page sb) as [[[]|e] s0] eqn:Hpage.
  2:{ destruct (perform sync_playwright_exit s0) as [rx sx] eqn:Hexit.
      rewrite (check_new_page_fails s sa sb s0 sx e rx); [|done..].
      by destruct rx as [[]|ex]. }
  destruct (try_except navigate (fun _ => ret None) s0) as [r s1] eqn:Hnav.
  destruct (perform browser_close s1) as [rc s2] eqn:Hclose.
  destruct (perform sync_playwright_exit s2) as [rx s3] eqn:Hexit.
  rewrite (check_for_appointments_teardown s sa sb s0 s1 s2 s3 r rc rx);
    [|done..].
  destruct rx as [[]|ex]; [|done]. destruct rc as [[]|ec]; [|done]. simpl.
  intros [= -> <-]. unfold try_except in Hnav.
  destruct (navigate s0) as [[found|e] s1'] eqn:Hn.
  - injection Hnav as -> <-. by apply navigate_nonneg in Hn.
  - unfold ret in Hnav. done.
Qed.

End Session.

(** X2. An exception while the browser session is being set
    up is outside the guarded part and reaches the caller: one from
    entering the playwright context as it is, one from the launch or from
    opening the page after the context has been left (and replaced by the
    exception of leaving it, if that raises too). *)
Theorem session_setup_errors_propagate :
  forall (W : Type) (R : Runtime W) (s sa : sys W) e,
    (perform sync_playwright_enter s = (Raise e, sa) ->
     check_for_appointments s = (Raise e, sa))
    /\ (forall sb sx rx,
          perform sync_playwright_enter s = (Ret tt, sa) ->
          perform chromium_launch sa = (Raise e, sb) ->
          perform sync_playwright_exit sb = (rx, sx) ->
          check_for_appointments s
          = (after_teardown (Raise e) (Ret tt) rx, sx))
    /\ (forall sb sc sx rx,
          perform sync_playwright_enter s = (Ret tt, sa) ->
          perform chromium_launch sa = (Ret tt, sb) ->
          perform browser_new_page sb = (Raise e, sc) ->
          perform sync_playwright_exit sc = (rx, sx) ->
          check_for_appointments s
          = (after_teardown (Raise e) (Ret tt) rx, sx)).
Proof.
  intros W R s sa e. split; [apply check_enter_fails|]. split.
  - intros sb sx rx. apply check_launch_fails.
  - intros sb sc sx rx. apply check_new_page_fails.
Qed.

(** X3. Once the page is open, the browser is closed and the
    playwright context left on every way out of the guarded part, whether
    it found a date, found none or caught an exception; an exception of
    the close or of the exit replaces the result. *)
Theorem teardown_on_every_path :
  forall (W : Type) (R : Runtime W) (s sa sb s0 s1 s2 s3 : sys W) r rc rx,
    perform sync_playwright_enter s = (Ret tt, sa) ->
    perform chromium_launch sa = (Ret tt, sb) ->
    perform browser_new_page sb = (Ret tt, s0) ->
    navigate s0 = (r, s1) ->
    perform browser_close s1 = (rc, s2) ->
    perform sync_playwright_exit s2 = (rx, s3) ->
    check_for_appointments s
    = (after_teardown
         (match r with Ret found => Ret found | Raise _ => Ret None end)
         rc rx, s3).
Proof.
  intros W R s sa sb s0 s1 s2 s3 r rc rx Henter Hlaunch Hpage Hnav Hclose Hexit.
  apply (check_for_appointments_teardown s sa sb s0 s1 s2 s3); try done.
  unfold try_except. rewrite Hnav. by destruct r.
Qed.

(** X4. The scraper never makes a request to the Bot API,
    whatever the browser does. *)
Theorem scraper_makes_no_request :
  forall (W : Type) (R : Runtime W) (s : sys W),
    http_log (snd (check_for_appointments s)) = http_log s.
Proof. intros W R s. apply check_for_appointments_keeps_log. Qed.

(** X5. A date returned by the scraper is never negative: only
    values made of digits are parsed. *)
Theorem scraped_date_nonneg :
  forall (W : Type) (R : Runtime W) (s s' : sys W) d,
    check_for_appointments s = (Ret (Some d), s') -> 0 <= d.
Proof. intros W R s s' d. apply check_for_appointments_nonneg. Qed.


Lemma session_setup_errors_propagate_witness :
  let enter_fails :=
    {| Stub.enter := Raise Stub.crash; Stub.launch := Ret tt;
       Stub.page := Ret tt; Stub.close := Ret tt; Stub.leave := Ret tt;
       Stub.now := Ret Fake.morning; Stub.answer := Fake.ok_response None;
       Stub.stored := Ret ∅; Stub.write := Ret tt |} in
  let launch_fails :=
    {| Stub.enter := Ret tt; Stub.launch := Raise Stub.crash;
       Stub.page := Ret tt; Stub.close := Ret tt; Stub.leave := Ret tt;
       Stub.now := Ret Fake.morning; Stub.answer := Fake.ok_response None;
       Stub.stored := Ret ∅; Stub.write := Ret tt |} in
  let page_fails :=
    {| Stub.enter := Ret tt; Stub.launch := Ret tt;
       Stub.page := Raise Stub.crash; Stub.close := Ret tt;
       Stub.leave := Ret tt;
       Stub.now := Ret Fake.morning; Stub.answer := Fake.ok_response None;
       Stub.stored := Ret ∅; Stub.write := Ret tt |} in
  check_for_appointments (Stub.start enter_fails)
  = (Raise Stub.crash, Stub.start enter_fails)
  /\ check_for_appointments (Stub.start launch_fails)
     = (Raise Stub.crash, Stub.start launch_fails)
  /\ check_for_appointments (Stub.start page_fails)
     = (Raise Stub.crash, Stub.start page_fails).
Proof.
  intros enter_fails launch_fails page_fails. split; [|split].
  - apply (proj1 (session_setup_errors_propagate Stub.t Stub.runtime
                    (Stub.start enter_fails) (Stub.start enter_fails)
                    Stub.crash)).
    vm_compute. reflexivity.
  - apply (proj1 (proj2 (session_setup_errors_propagate Stub.t Stub.runtime
                           (Stub.start launch_fails) (Stub.start launch_fails)
                           Stub.crash))
                 (Stub.start launch_fails) (Stub.start launch_fails) (Ret tt));
      (vm_compute; reflexivity).
  - apply (proj2 (proj2 (session_setup_errors_propagate Stub.t Stub.runtime
                           (Stub.start page_fails) (Stub.start page_fails)
                           Stub.crash))
                 (Stub.start page_fails) (Stub.start page_fails)
                 (Stub.start page_fails) (Ret tt));
      (vm_compute; reflexivity).
Defined.

Lemma teardown_on_every_path_witness :
  let close_fails :=
    {| Stub.enter := Ret tt; Stub.launch := Ret tt; Stub.page := Ret tt;
       Stub.close := Raise Stub.crash; Stub.leave := Ret tt;
       Stub.now := Ret Fake.morning; Stub.answer := Fake.ok_response None;
       Stub.stored := Ret ∅; Stub.write := Ret tt |} in
  check_for_appointments (Stub.start close_fails)
  = (Raise Stub.crash, Stub.start close_fails)
  /\ check_for_appointments (Stub.start Stub.fine)
     = (Ret None, Stub.start Stub.fine).
Proof.
  intros close_fails. split.
  - set (s := Stub.start close_fails).
    apply (teardown_on_every_path Stub.t Stub.runtime s s s s s s s
             (Ret None) (Raise Stub.crash) (Ret tt));
      (vm_compute; reflexivity).
  - set (s := Stub.start Stub.fine).
    apply (teardown_on_every_path Stub.t Stub.runtime s s s s s s s
             (Ret None) (Ret tt) (Ret tt));
      (vm_compute; reflexivity).
Defined.

Lemma scraped_date_nonneg_witness : 0 <= 20260201.
Proof.
  apply (scraped_date_nonneg Fake.t Fake.runtime
           (Fake.start (Fake.site [Some (u "20260301"); Some (u "20260201")]))
           (Fake.start (Fake.site [Some (u "20260301"); Some (u "20260201")]))).
  vm_compute. reflexivity.
Defined.


(** ** De-duplication of the alert *)



(** ** Command dispatch *)

Section Dispatching.

Context {W : Type} `{Runtime W}.
Variable cfg : Config.

Lemma handle_update_silent upd (s : sys W) :
  silent upd -> handle_update cfg upd s = (Ret tt, s).
Proof.
  unfold silent, handle_update.
  destruct (upd_message upd) as [msg|]; [|done].
  destruct (strip _) as [|c text]; [done|].
  intros [Hempty|[Hstart Hcheck]]; [done|].
  by rewrite !bool_decide_eq_false_2.
Qed.

Lemma handle_updates_silent updates m (s : sys W) :
  Forall silent updates ->
  handle_updates cfg updates m s = (Ret (batch_max m updates), s).
Proof.
  intros Hsilent. revert m.
  induction Hsilent as [|upd updates Hupd _ IH]; intros m; [done|].
  cbn [handle_updates]. rewrite batch_max_cons. unfold bind.
  rewrite (handle_update_silent upd s Hupd). apply IH.
Qed.

(** One update brings at most one reply, addressed to its sender. *)
Lemma handle_update_replies upd (s : sys W) :
  sent_messages (http_log (snd (handle_update cfg upd s)))
    = sent_messages (http_log s)
  \/ exists msg text,
       upd_message upd = Some msg
       /\ sent_messages (http_log (snd (handle_update cfg upd s)))
          = (str_of_int (msg_chat_id msg), text) :: sent_messages (http_log s).
Proof.
  assert (forall chat_id text (s0 : sys W),
            http_log s0 = http_log s ->
            sent_messages (http_log (snd (send_telegram cfg chat_id text s0)))
              = sent_messages (http_log s)
            \/ sent_messages (http_log (snd (send_telegram cfg chat_id text s0)))
               = (chat_id, text) :: sent_messages (http_log s)) as Hsend.
  { intros chat_id text s0 Hs0. rewrite send_telegram_eq. simpl.
    destruct (after_send_log cfg chat_id text s0) as [->|[o ->]].
    - left. by rewrite Hs0.
    - right. simpl. by rewrite Hs0. }
  unfold handle_update. destruct (upd_message upd) as [msg|]; [|by left].
  destruct (strip _) as [|c text]; [by left|].
  case_bool_decide.
  { destruct (Hsend (str_of_int (msg_chat_id msg)) start_text s eq_refl)
      as [E|E]; [by left|]. right. by exists msg, start_text. }
  case_bool_decide; [|by left].
  unfold bind.
  pose proof (check_for_appointments_keeps_log (W:=W) s) as Hkeep.
  destruct (check_for_appointments s) as [[found|e] s1]; simpl in Hkeep;
    [|left; simpl; by rewrite Hkeep].
  destruct found as [d|].
  - destruct (Hsend (str_of_int (msg_chat_id msg)) (check_text cfg d) s1 Hkeep)
      as [E|E]; [by left|]. right. by exists msg, (check_text cfg d).
  - destruct (Hsend (str_of_int (msg_chat_id msg)) no_slots_text s1 Hkeep)
      as [E|E]; [by left|]. right. by exists msg, no_slots_text.
Qed.

Lemma handle_updates_replies updates m (s : sys W) :
  exists replies,
    sent_messages (http_log (snd (handle_updates cfg updates m s)))
      = replies ++ sent_messages (http_log s)
    /\ Forall (fun reply => fst reply ∈ senders updates) replies
    /\ (length replies <= length updates)%nat.
Proof.
  revert m s. induction updates as [|upd updates IH]; intros m s.
  - exists []. by repeat split.
  - cbn [handle_updates]. unfold bind.
    pose proof (handle_update_replies upd s) as Hone.
    destruct (handle_update cfg upd s) as [[[]|e] s1]; simpl in Hone.
    + destruct (IH (Z.max m (default m (upd_update_id upd))) s1)
        as (replies & Hlog & Hto & Hlen).
      destruct Hone as [Hone|(msg & text & Hmsg & Hone)].
      * exists replies. rewrite Hlog, Hone. split; [done|]. split.
        -- eapply Forall_impl; [exact Hto|]. intros [c t] Hc. simpl in *.
           unfold senders in *. cbn [omap].
           destruct (upd_message upd); [by right|done].
        -- simpl. lia.
      * exists (replies ++ [(str_of_int (msg_chat_id msg), text)]).
        rewrite Hlog, Hone. split; [by rewrite <- app_assoc|]. split.
        -- apply Forall_app. split.
           ++ eapply Forall_impl; [exact Hto|]. intros [c t] Hc. simpl in *.
              unfold senders in *. cbn [omap]. rewrite Hmsg. by right.
           ++ apply Forall_singleton. simpl. unfold senders. cbn [omap].
              rewrite Hmsg. by left.
        -- rewrite length_app. simpl. lia.
    + destruct Hone as [Hone|(msg & text & Hmsg & Hone)].
      * exists []. simpl. split; [done|]. split; [done|lia].
      * exists [(str_of_int (msg_chat_id msg), text)]. simpl.
        split; [done|]. split; [|lia].
        apply Forall_singleton. simpl. unfold senders. cbn [omap].
        rewrite Hmsg. by left.
Qed.

End Dispatching.

Lemma poll_sends_nothing {W : Type} `{Runtime W} cfg method offset timeout
    (s : sys W) :
  sent_messages (http_log (snd (tg_api cfg method (GetUpdates offset timeout) s)))
  = sent_messages (http_log s).
Proof.
  unfold tg_api, raise. destruct (BOT_TOKEN cfg) as [|b token]; [done|].
  destruct (requests_post _ _ _) as [[resp|e] w]; [|done].
  by destruct (negb (r_ok resp)).
Qed.

(** X9. A polled batch in which no update carries a command (no
    message, only white space, or any other text) is consumed without a
    reply and without a scrape: the offset moves to the maximum and the
    system is as the poll left it. *)
Theorem unrecognized_updates_ignored :
  forall (W : Type) (R : Runtime W) (cfg : Config)
         (state : gmap pystr value) (s s1 : sys W) n body,
    dict_get_default state K_LAST_UPDATE_ID (VInt 0) = VInt n ->
    tg_api cfg (u "getUpdates") (GetUpdates (n + 1) 0) s = (Ret body, s1) ->
    default [] (body_result body) <> [] ->
    Forall silent (default [] (body_result body)) ->
    process_incoming_commands cfg state s
    = (Ret (<[K_LAST_UPDATE_ID :=
                VInt (batch_max n (default [] (body_result body)))]> state),
       s1).
Proof.
  intros W R cfg state s s1 n body Hprior Hpoll Hne Hsilent.
  rewrite (process_polled cfg state s s1 n body Hprior Hpoll).
  destruct (default [] (body_result body)) as [|upd rest]; [done|].
  by rewrite (handle_updates_silent cfg (upd :: rest) n s1 Hsilent).
Qed.

Lemma unrecognized_updates_ignored_witness :
  fst (process_incoming_commands (Fake.config (u "42")) ∅
         (Fake.start
            (Fake.with_posts
               [Fake.ok_response
                  (Some [Fake.bare_update 5; Fake.text_update 6 77 "hello";
                         Fake.text_update 7 77 "   "])]
               (Fake.site [Some (u "20260201")]))))
  = Ret {[ K_LAST_UPDATE_ID := VInt 7 ]}.
Proof.
  set (cfg := Fake.config (u "42")).
  set (batch := [Fake.bare_update 5; Fake.text_update 6 77 "hello";
                 Fake.text_update 7 77 "   "]).
  set (s := Fake.start
              (Fake.with_posts [Fake.ok_response (Some batch)]
                 (Fake.site [Some (u "20260201")]))).
  assert (dict_get_default ∅ K_LAST_UPDATE_ID (VInt 0) = VInt 0) as Hprior
    by reflexivity.
  assert (tg_api cfg (u "getUpdates") (GetUpdates (0 + 1) 0) s
          = (Ret {| body_result := Some batch |},
             snd (tg_api cfg (u "getUpdates") (GetUpdates (0 + 1) 0) s)))
    as Hpoll by (vm_compute; reflexivity).
  assert (Forall (silent (W:=Fake.t)) batch) as Hsilent.
  { constructor; [exact I|]. constructor; [|constructor; [|constructor]].
    - right. split; intros Hin; vm_compute in Hin;
        repeat (apply elem_of_cons in Hin as [Hin|Hin]; [discriminate Hin|]);
        by apply not_elem_of_nil in Hin.
    - left. reflexivity. }
  rewrite (unrecognized_updates_ignored Fake.t Fake.runtime cfg ∅ s _ 0 _
             Hprior Hpoll ltac:(discriminate) Hsilent).
  reflexivity.
Defined.

(** X10. Whatever a polled batch holds, the command processor sends
    at most one message per update, each to the chat a message of the
    batch came from, and none elsewhere. *)
Theorem replies_go_to_senders :
  forall (W : Type) (R : Runtime W) (cfg : Config)
         (state : gmap pystr value) (s s1 : sys W) n body,
    dict_get_default state K_LAST_UPDATE_ID (VInt 0) = VInt n ->
    tg_api cfg (u "getUpdates") (GetUpdates (n + 1) 0) s = (Ret body, s1) ->
    exists replies,
      sent_messages (http_log (snd (process_incoming_commands cfg state s)))
        = replies ++ sent_messages (http_log s)
      /\ Forall (fun reply =>
                   fst reply ∈ senders (default [] (body_result body)))
                replies
      /\ (length replies <= length (default [] (body_result body)))%nat.
Proof.
  intros W R cfg state s s1 n body Hprior Hpoll.
  rewrite (process_polled cfg state s s1 n body Hprior Hpoll).
  pose proof (poll_sends_nothing cfg (u "getUpdates") (n + 1) 0 s) as Hquiet.
  rewrite Hpoll in Hquiet. simpl in Hquiet.
  destruct (default [] (body_result body)) as [|upd rest].
  - exists []. simpl. split; [done|]. split; [done|lia].
  - destruct (handle_updates_replies cfg (upd :: rest) n s1)
      as (replies & Hlog & Hto & Hlen).
    exists replies. rewrite <- Hquiet, <- Hlog. split; [|done].
    by destruct (handle_updates cfg (upd :: rest) n s1) as [[m|e] s'].
Qed.

Lemma replies_go_to_senders_witness :
  exists replies,
    sent_messages
      (http_log (snd (process_incoming_commands (Fake.config (u "42")) ∅
         (Fake.start
            (Fake.with_posts
               [Fake.ok_response
                  (Some [Fake.text_update 3 77 "/check";
                         Fake.text_update 4 88 "Start"]);
                Fake.ok_response None; Fake.ok_response None]
               (Fake.site [Some (u "20260201")]))))))
    = replies ++ []
    /\ Forall (fun reply => fst reply ∈ [u "77"; u "88"]) replies
    /\ (length replies <= 2)%nat.
Proof.
  set (cfg := Fake.config (u "42")).
  set (batch := [Fake.text_update 3 77 "/check";
                 Fake.text_update 4 88 "Start"]).
  set (s := Fake.start
              (Fake.with_posts
                 [Fake.ok_response (Some batch); Fake.ok_response None;
                  Fake.ok_response None]
                 (Fake.site [Some (u "20260201")]))).
  assert (dict_get_default ∅ K_LAST_UPDATE_ID (VInt 0) = VInt 0) as Hprior
    by reflexivity.
  assert (tg_api cfg (u "getUpdates") (GetUpdates (0 + 1) 0) s
          = (Ret {| body_result := Some batch |},
             snd (tg_api cfg (u "getUpdates") (GetUpdates (0 + 1) 0) s)))
    as Hpoll by (vm_compute; reflexivity).
  exact (replies_go_to_senders Fake.t Fake.runtime cfg ∅ s _ 0 _
           Hprior Hpoll).
Defined.

(** X11. A record whose [last_update_id] is not an integer
    stops the command processor before the poll: the addition fails
    inside the guarded part, no request is made and the record is
    returned as it is, on every run. *)
Theorem non_integer_offset_blocks_poll :
  forall (W : Type) (R : Runtime W) (cfg : Config)
         (state : gmap pystr value) (s : sys W),
    (forall n, dict_get_default state K_LAST_UPDATE_ID (VInt 0) <> VInt n) ->
    process_incoming_commands cfg state s = (Ret state, s).
Proof.
  intros W R cfg state s Hv. unfold process_incoming_commands, bind.
  by rewrite poll_updates_not_int.
Qed.

Lemma non_integer_offset_blocks_poll_witness :
  process_incoming_commands (Fake.config (u "42"))
    {[ K_LAST_UPDATE_ID := VStr (u "7") ]}
    (Fake.start (Fake.with_posts [Fake.ok_response None] (Fake.site [])))
  = (Ret {[ K_LAST_UPDATE_ID := VStr (u "7") ]},
     Fake.start (Fake.with_posts [Fake.ok_response None] (Fake.site []))).
Proof.
  apply (non_integer_offset_blocks_poll Fake.t Fake.runtime).
  intros n E. vm_compute in E. discriminate E.
Defined.

(** ** The heartbeat from one day to the next *)

Lemma pystr_eqb_eq a b : pystr_eqb a b = true -> a = b.
Proof.
  revert b. induction a as [|x a IH]; intros [|y b]; simpl; try done.
  intros E. apply andb_true_iff in E as [Exy E].
  apply N.eqb_eq in Exy as ->. f_equal. by apply IH.
Qed.

Lemma in_z_range lo len n :
  lo <= n < lo + Z.of_nat len -> In n (z_range lo len).
Proof.
  revert lo. induction len as [|len IH]; intros lo Hn; [lia|].
  simpl. destruct (decide (lo = n)) as [->|Hne]; [by left|].
  right. apply IH. lia.
Qed.

Lemma zfill4_digits n :
  0 <= n <= 9999 ->
  zfill 4 (str_of_int n)
  = [Z.to_N (48 + n / 1000); Z.to_N (48 + n / 100 mod 10);
     Z.to_N (48 + n / 10 mod 10); Z.to_N (48 + n mod 10)].
Proof.
  intros Hn.
  assert (forallb
            (fun k : Z =>
               pystr_eqb
                 (zfill 4 (str_of_int k))
                 [Z.to_N (48 + k / 1000); Z.to_N (48 + k / 100 mod 10);
                  Z.to_N (48 + k / 10 mod 10); Z.to_N (48 + k mod 10)])
            (z_range 0 (Z.to_nat 10000)) = true) as Hall
    by (vm_compute; reflexivity).
  rewrite forallb_forall in Hall.
  apply pystr_eqb_eq, Hall, in_z_range. lia.
Qed.

Lemma zfill2_digits n :
  0 <= n <= 99 ->
  zfill 2 (str_of_int n) = [Z.to_N (48 + n / 10); Z.to_N (48 + n mod 10)].
Proof.
  intros Hn.
  assert (forallb
            (fun k : Z =>
               pystr_eqb
                 (zfill 2 (str_of_int k))
                 [Z.to_N (48 + k / 10); Z.to_N (48 + k mod 10)])
            (z_range 0 (Z.to_nat 100)) = true) as Hall
    by (vm_compute; reflexivity).
  rewrite forallb_forall in Hall.
  apply pystr_eqb_eq, Hall, in_z_range. lia.
Qed.

Lemma digit_code_inj a b :
  0 <= a -> 0 <= b -> Z.to_N (48 + a) = Z.to_N (48 + b) -> a = b.
Proof. intros Ha Hb E. apply Z2N.inj in E; lia. Qed.

(** Two proper dates with the same ISO text are the same date. *)
Lemma isoformat_inj a b :
  proper_date a -> proper_date b -> isoformat a = isoformat b -> same_date a b.
Proof.
  intros (Hya & Hma & Hda) (Hyb & Hmb & Hdb). unfold isoformat.
  rewrite !zfill4_digits, !zfill2_digits by lia.
  intros E. simpl in E.
  injection E as Ey1 Ey2 Ey3 Ey4 Em1 Em2 Ed1 Ed2.
  apply digit_code_inj in Ey1, Ey2, Ey3, Ey4, Em1, Em2, Ed1, Ed2;
    try (Z.div_mod_to_equations; lia).
  unfold same_date. repeat split; Z.div_mod_to_equations; lia.
Qed.

(** X12. A date recorded on an earlier day does not hold the
    heartbeat back: with a recipient configured, inside the window, a
    record that holds the ISO text of another proper date lets the
    heartbeat out and is updated to today's date. *)
Theorem heartbeat_again_on_another_date :
  forall (W : Type) (R : Runtime W) (cfg : Config)
         (state : gmap pystr value) (s : sys W) now w before,
    DEFAULT_CHAT_ID cfg <> [] ->
    datetime_now (TIMEZONE cfg) (world s) = (Ret now, w) ->
    in_window cfg now = true ->
    dict_get state K_LAST_PING_DATE = VStr (isoformat before) ->
    proper_date before -> proper_date now ->
    ~ same_date before now ->
    maybe_send_daily_heartbeat cfg state s
    = (Ret (<[K_LAST_PING_DATE := VStr (isoformat now)]> state),
       after_send cfg (DEFAULT_CHAT_ID cfg) (heartbeat_text now)
         (Sys w (http_log s))).
Proof.
  intros W R cfg state s now w before Hchat Hnow Hwin Hlast Hb Hn Hdiff.
  rewrite (heartbeat_eq cfg state s now w Hchat Hnow), Hwin.
  rewrite (proj2 (py_eq_false _ _)); [done|].
  rewrite Hlast. intros [= E]. by apply isoformat_inj in E.
Qed.

Lemma heartbeat_again_on_another_date_witness :
  fst (maybe_send_daily_heartbeat (Fake.config (u "42"))
         {[ K_LAST_PING_DATE := VStr (u "2026-01-31") ]}
         (Fake.start (Fake.with_posts [Fake.ok_response None] (Fake.site []))))
  = Ret {[ K_LAST_PING_DATE := VStr (u "2026-02-01") ]}.
Proof.
  set (cfg := Fake.config (u "42")).
  set (w := Fake.with_posts [Fake.ok_response None] (Fake.site [])).
  set (before := {| dt_year := 2026; dt_month := 1; dt_day := 31;
                    dt_hour := 9; dt_minute := 3; dt_tzname := u "CET" |}).
  assert (DEFAULT_CHAT_ID cfg <> []) as Hchat by discriminate.
  assert (datetime_now (TIMEZONE cfg) (world (Fake.start w))
          = (Ret Fake.morning, w)) as Hnow by reflexivity.
  assert (in_window cfg Fake.morning = true) as Hwin by reflexivity.
  assert (dict_get {[ K_LAST_PING_DATE := VStr (u "2026-01-31") ]}
            K_LAST_PING_DATE = VStr (isoformat before)) as Hlast
    by reflexivity.
  assert (proper_date before) as Hb by (unfold proper_date; simpl; lia).
  assert (proper_date Fake.morning) as Hn by (unfold proper_date; simpl; lia).
  assert (~ same_date before Fake.morning) as Hdiff.
  { intros (_ & Hm & _). discriminate Hm. }
  rewrite (heartbeat_again_on_another_date Fake.t Fake.runtime cfg _
             (Fake.start w) Fake.morning w before
             Hchat Hnow Hwin Hlast Hb Hn Hdiff).
  vm_compute. reflexivity.
Defined.

(** ** What a run does to the record *)

Section Record.

Context {W : Type} `{Runtime W}.
Variable cfg : Config.

Lemma process_shape state (s s' : sys W) state' :
  process_incoming_commands cfg state s = (Ret state', s') ->
  state' = state \/ exists m, state' = <[K_LAST_UPDATE_ID := VInt m]> state.
Proof.
  destruct (dict_get_default state K_LAST_UPDATE_ID (VInt 0)) as [|n|t]
    eqn:Hprior.
  1,3: unfold process_incoming_commands; rewrite Hprior; unfold bind;
       rewrite poll_updates_not_int by done; intros [= <- _]; by left.
  destruct (tg_api cfg (u "getUpdates") (GetUpdates (n + 1) 0) s)
    as [[body|e] s1] eqn:Hpoll.
  - rewrite (process_polled cfg state s s1 n body Hprior Hpoll).
    destruct (default [] (body_result body)) as [|upd rest].
    + intros [= <- _]. by left.
    + destruct (handle_updates cfg (upd :: rest) n s1) as [[m|e] s2]; [|done].
      intros [= <- _]. right. by exists m.
  - rewrite (process_poll_failed cfg state s s1 n e Hprior Hpoll).
    intros [= <- _]. by left.
Qed.

Lemma heartbeat_shape state (s s' : sys W) state' :
  maybe_send_daily_heartbeat cfg state s = (Ret state', s') ->
  state' = state
  \/ exists today, state' = <[K_LAST_PING_DATE := VStr today]> state.
Proof.
  destruct (decide (DEFAULT_CHAT_ID cfg = [])) as [E|E].
  { rewrite heartbeat_no_recipient by done. intros [= <- _]. by left. }
  destruct (datetime_now (TIMEZONE cfg) (world s)) as [[now|e] w] eqn:Hnow.
  - rewrite (heartbeat_eq cfg state s now w E Hnow).
    destruct (py_eq _ _); [intros [= <- _]; by left|].
    destruct (in_window cfg now); intros [= <- _]; [|by left].
    right. by exists (isoformat now).
  - by rewrite (heartbeat_clock_fails cfg state s e w E Hnow).
Qed.

Lemma scheduled_alert_shape state (s s' : sys W) state' :
  scheduled_alert cfg state s = (Ret state', s') ->
  state' = state
  \/ exists d, state' = <[K_LAST_NOTIFIED_EARLIEST := VInt d]> state.
Proof.
  destruct (check_for_appointments s) as [[found|e] s1] eqn:Hcheck.
  2:{ by rewrite (scheduled_alert_raises cfg state s s1 e Hcheck). }
  destruct found as [d|].
  2:{ rewrite (scheduled_alert_not_due cfg state s s1 None Hcheck).
      - intros [= <- _]. by left.
      - by intros (d & ? & _). }
  destruct (decide (d < MY_CURRENT_APPOINTMENT cfg)) as [Hlt|Hge];
    [destruct (decide (str_of_int d
                       = py_str (dict_get state K_LAST_NOTIFIED_EARLIEST)))
       as [Hsame|Hnew]|].
  2:{ rewrite (scheduled_alert_due cfg state s s1 d Hcheck Hlt Hnew).
      intros [= <- _]. right. by exists d. }
  all: rewrite (scheduled_alert_not_due cfg state s s1 (Some d) Hcheck);
    [intros [= <- _]; by left|].
  all: intros (d' & [= <-] & ? & ?); done.
Qed.

Lemma lookup_after_insert_or_same (state state' : gmap pystr value) key k :
  (state' = state \/ exists v, state' = <[key := v]> state) ->
  (k <> key -> state' !! k = state !! k)
  /\ (is_Some (state !! k) -> is_Some (state' !! k)).
Proof.
  intros [->|[v ->]]; [done|]. split.
  - intros Hk. by rewrite lookup_insert_ne.
  - intros Hs. destruct (decide (key = k)) as [->|Hk].
    + rewrite lookup_insert_eq. by eexists.
    + by rewrite lookup_insert_ne.
Qed.

End Record.

(** X13. Each step of a run changes at most its own field of the
    record: the command processor [last_update_id], the heartbeat
    [last_ping_date], the scheduled alert [last_notified_earliest]; and
    no step removes a key. *)
Theorem steps_touch_own_keys :
  forall (W : Type) (R : Runtime W) (cfg : Config)
         (state state1 state2 state3 : gmap pystr value)
         (s s1 t1 s2 t2 s3 : sys W),
    process_incoming_commands cfg state s = (Ret state1, s1) ->
    maybe_send_daily_heartbeat cfg state1 t1 = (Ret state2, s2) ->
    scheduled_alert cfg state2 t2 = (Ret state3, s3) ->
    (forall k, k <> K_LAST_UPDATE_ID -> state1 !! k = state !! k)
    /\ (forall k, k <> K_LAST_PING_DATE -> state2 !! k = state1 !! k)
    /\ (forall k, k <> K_LAST_NOTIFIED_EARLIEST -> state3 !! k = state2 !! k)
    /\ (forall k, is_Some (state !! k) -> is_Some (state3 !! k)).
Proof.
  intros W R cfg state state1 state2 state3 s s1 t1 s2 t2 s3 Hp Hh Ha.
  apply process_shape in Hp. apply heartbeat_shape in Hh.
  apply scheduled_alert_shape in Ha.
  assert (state1 = state
          \/ exists v, state1 = <[K_LAST_UPDATE_ID := v]> state) as Hp'
    by (destruct Hp as [->|[m ->]]; [by left|right; by eexists]).
  assert (state2 = state1
          \/ exists v, state2 = <[K_LAST_PING_DATE := v]> state1) as Hh'
    by (destruct Hh as [->|[t ->]]; [by left|right; by eexists]).
  assert (state3 = state2
          \/ exists v, state3 = <[K_LAST_NOTIFIED_EARLIEST := v]> state2) as Ha'
    by (destruct Ha as [->|[d ->]]; [by left|right; by eexists]).
  split; [intros k; apply (lookup_after_insert_or_same _ _ _ k Hp')|].
  split; [intros k; apply (lookup_after_insert_or_same _ _ _ k Hh')|].
  split; [intros k; apply (lookup_after_insert_or_same _ _ _ k Ha')|].
  intros k Hk.
  apply (lookup_after_insert_or_same _ _ _ k Ha').
  apply (lookup_after_insert_or_same _ _ _ k Hh').
  by apply (lookup_after_insert_or_same _ _ _ k Hp').
Qed.

Lemma steps_touch_own_keys_witness :
  is_Some ((<[K_LAST_PING_DATE := VStr (u "2026-02-01")]>
              {[ u "note" := VStr (u "kept") ]} : gmap pystr value)
           !! u "note").
Proof.
  set (cfg := Fake.config (u "42")).
  set (state := {[ u "note" := VStr (u "kept") ]} : gmap pystr value).
  set (state2 := <[K_LAST_PING_DATE := VStr (u "2026-02-01")]> state).
  set (s := Stub.start Stub.fine).
  assert (process_incoming_commands cfg state s
          = (Ret state, snd (process_incoming_commands cfg state s))) as Hp
    by (vm_compute; reflexivity).
  assert (maybe_send_daily_heartbeat cfg state s
          = (Ret state2, snd (maybe_send_daily_heartbeat cfg state s))) as Hh
    by (vm_compute; reflexivity).
  assert (scheduled_alert cfg state2 s = (Ret state2, s)) as Ha
    by (vm_compute; reflexivity).
  destruct (steps_touch_own_keys Stub.t Stub.runtime cfg
              state state state2 state2 s _ s _ s s Hp Hh Ha)
    as (_ & _ & _ & Hkept).
  apply Hkept. by eexists.
Defined.

(** X14. Without the credential a run raises at once and touches
    nothing.  With it, the run loads the record and takes the three steps
    in order; it stops at the first step that raises, leaving the system
    as that step left it, the state file unwritten; and when no step
    raises it ends by writing the record the last step returned, the
    outcome of the write being the outcome of the run. *)
Theorem main_step_by_step :
  forall (W : Type) (R : Runtime W) (cfg : Config) (s s0 : sys W) state0,
    (BOT_TOKEN cfg = [] ->
     main cfg s = (Raise (RuntimeError (u "Missing TELEGRAM_BOT_TOKEN")), s))
    /\ (BOT_TOKEN cfg <> [] ->
        load_state s = (Ret state0, s0) ->
        (forall e s1,
           process_incoming_commands cfg state0 s0 = (Raise e, s1) ->
           main cfg s = (Raise e, s1))
        /\ (forall state1 s1 e s2,
              process_incoming_commands cfg state0 s0 = (Ret state1, s1) ->
              maybe_send_daily_heartbeat cfg state1 s1 = (Raise e, s2) ->
              main cfg s = (Raise e, s2))
        /\ (forall state1 s1 state2 s2 e s3,
              process_incoming_commands cfg state0 s0 = (Ret state1, s1) ->
              maybe_send_daily_heartbeat cfg state1 s1 = (Ret state2, s2) ->
              scheduled_alert cfg state2 s2 = (Raise e, s3) ->
              main cfg s = (Raise e, s3))
        /\ (forall state1 s1 state2 s2 state3 s3,
              process_incoming_commands cfg state0 s0 = (Ret state1, s1) ->
              maybe_send_daily_heartbeat cfg state1 s1 = (Ret state2, s2) ->
              scheduled_alert cfg state2 s2 = (Ret state3, s3) ->
              main cfg s = save_state state3 s3)).
Proof.
  intros W R cfg s s0 state0. unfold main. split; [by intros ->|].
  intros Htoken Hload. destruct (BOT_TOKEN cfg) as [|b token]; [done|].
  repeat split.
  - intros e s1 Hp. unfold bind. by rewrite Hload, Hp.
  - intros state1 s1 e s2 Hp Hh. unfold bind. by rewrite Hload, Hp, Hh.
  - intros state1 s1 state2 s2 e s3 Hp Hh Ha. unfold bind.
    by rewrite Hload, Hp, Hh, Ha.
  - intros state1 s1 state2 s2 state3 s3 Hp Hh Ha. unfold bind.
    by rewrite Hload, Hp, Hh, Ha.
Qed.

Lemma main_step_by_step_witness :
  let no_token :=
    {| MY_CURRENT_APPOINTMENT := 20260210; BOT_TOKEN := [];
       DEFAULT_CHAT_ID := u "42"; TIMEZONE := u "Europe/Berlin";
       HEARTBEAT_HOUR := 9 |} in
  let cfg := Fake.config (u "42") in
  let check_asked :=
    {| Stub.enter := Ret tt; Stub.launch := Raise Stub.crash;
       Stub.page := Ret tt; Stub.close := Ret tt; Stub.leave := Ret tt;
       Stub.now := Ret Fake.morning;
       Stub.answer :=
         Fake.ok_response (Some [Fake.text_update 1 77 "/check"]);
       Stub.stored := Ret ∅; Stub.write := Ret tt |} in
  let no_clock :=
    {| Stub.enter := Ret tt; Stub.launch := Ret tt; Stub.page := Ret tt;
       Stub.close := Ret tt; Stub.leave := Ret tt;
       Stub.now := Raise Stub.crash; Stub.answer := Fake.ok_response None;
       Stub.stored := Ret ∅; Stub.write := Ret tt |} in
  let no_browser :=
    {| Stub.enter := Ret tt; Stub.launch := Raise Stub.crash;
       Stub.page := Ret tt; Stub.close := Ret tt; Stub.leave := Ret tt;
       Stub.now := Ret Fake.morning; Stub.answer := Fake.ok_response None;
       Stub.stored := Ret ∅; Stub.write := Ret tt |} in
  main no_token (Stub.start Stub.fine)
  = (Raise (RuntimeError (u "Missing TELEGRAM_BOT_TOKEN")),
     Stub.start Stub.fine)
  /\ fst (main cfg (Stub.start check_asked)) = Raise Stub.crash
  /\ fst (main cfg (Stub.start no_clock)) = Raise Stub.crash
  /\ fst (main cfg (Stub.start no_browser)) = Raise Stub.crash
  /\ fst (main cfg (Stub.start Stub.fine)) = Ret tt.
Proof.
  intros no_token cfg check_asked no_clock no_browser.
  assert (BOT_TOKEN cfg <> []) as Htoken by discriminate.
  split; [|split; [|split; [|split]]].
  - apply (proj1 (main_step_by_step Stub.t Stub.runtime no_token
                    (Stub.start Stub.fine) (Stub.start Stub.fine) ∅)).
    reflexivity.
  - set (s := Stub.start check_asked).
    assert (load_state s = (Ret ∅, s)) as Hload by reflexivity.
    assert (process_incoming_commands cfg ∅ s
            = (Raise Stub.crash, snd (process_incoming_commands cfg ∅ s)))
      as Hp by (vm_compute; reflexivity).
    destruct (proj2 (main_step_by_step Stub.t Stub.runtime cfg s s ∅)
                    Htoken Hload) as (Hstop & _).
    by rewrite (Hstop _ _ Hp).
  - set (s := Stub.start no_clock).
    assert (load_state s = (Ret ∅, s)) as Hload by reflexivity.
    assert (process_incoming_commands cfg ∅ s
            = (Ret ∅, snd (process_incoming_commands cfg ∅ s)))
      as Hp by (vm_compute; reflexivity).
    set (s1 := snd (process_incoming_commands cfg ∅ s)) in *.
    assert (maybe_send_daily_heartbeat cfg ∅ s1
            = (Raise Stub.crash, snd (maybe_send_daily_heartbeat cfg ∅ s1)))
      as Hh by (vm_compute; reflexivity).
    destruct (proj2 (main_step_by_step Stub.t Stub.runtime cfg s s ∅)
                    Htoken Hload) as (_ & Hstop & _).
    by rewrite (Hstop _ _ _ _ Hp Hh).
  - set (s := Stub.start no_browser).
    assert (load_state s = (Ret ∅, s)) as Hload by reflexivity.
    assert (process_incoming_commands cfg ∅ s
            = (Ret ∅, snd (process_incoming_commands cfg ∅ s)))
      as Hp by (vm_compute; reflexivity).
    set (s1 := snd (process_incoming_commands cfg ∅ s)) in *.
    set (state2 := {[ K_LAST_PING_DATE := VStr (u "2026-02-01") ]}
                   : gmap pystr value).
    assert (maybe_send_daily_heartbeat cfg ∅ s1
            = (Ret state2, snd (maybe_send_daily_heartbeat cfg ∅ s1)))
      as Hh by (vm_compute; reflexivity).
    set (s2 := snd (maybe_send_daily_heartbeat cfg ∅ s1)) in *.
    assert (scheduled_alert cfg state2 s2
            = (Raise Stub.crash, snd (scheduled_alert cfg state2 s2)))
      as Ha by (vm_compute; reflexivity).
    destruct (proj2 (main_step_by_step Stub.t Stub.runtime cfg s s ∅)
                    Htoken Hload) as (_ & _ & Hstop & _).
    by rewrite (Hstop _ _ _ _ _ _ Hp Hh Ha).
  - set (s := Stub.start Stub.fine).
    assert (load_state s = (Ret ∅, s)) as Hload by reflexivity.
    assert (process_incoming_commands cfg ∅ s
            = (Ret ∅, snd (process_incoming_commands cfg ∅ s)))
      as Hp by (vm_compute; reflexivity).
    set (s1 := snd (process_incoming_commands cfg ∅ s)) in *.
    set (state2 := {[ K_LAST_PING_DATE := VStr (u "2026-02-01") ]}
                   : gmap pystr value).
    assert (maybe_send_daily_heartbeat cfg ∅ s1
            = (Ret state2, snd (maybe_send_daily_heartbeat cfg ∅ s1)))
      as Hh by (vm_compute; reflexivity).
    set (s2 := snd (maybe_send_daily_heartbeat cfg ∅ s1)) in *.
    assert (scheduled_alert cfg state2 s2 = (Ret state2, s2))
      as Ha by (vm_compute; reflexivity).
    destruct (proj2 (main_step_by_step Stub.t Stub.runtime cfg s s ∅)
                    Htoken Hload) as (_ & _ & _ & Hend).
    rewrite (Hend _ _ _ _ _ _ Hp Hh Ha). reflexivity.
Defined.

(** ** From one run to the next *)

(** X15. When the command processor has gone through a polled
    batch, the next run on the record it returned asks for updates from an
    offset that lies above every update id of that batch: no update of the
    batch is handed out again. *)
Theorem processed_updates_not_polled_again :
  forall (W : Type) (R : Runtime W) (cfg : Config)
         (state state' : gmap pystr value) (s s1 s' : sys W) n body,
    dict_get_default state K_LAST_UPDATE_ID (VInt 0) = VInt n ->
    tg_api cfg (u "getUpdates") (GetUpdates (n + 1) 0) s = (Ret body, s1) ->
    process_incoming_commands cfg state s = (Ret state', s') ->
    exists offset,
      (forall s2 : sys W,
         exists l o,
           http_log (snd (process_incoming_commands cfg state' s2))
           = l ++ Post (api_url cfg (u "getUpdates")) (GetUpdates offset 0) o
                  :: http_log s2)
      /\ n < offset
      /\ forall upd i,
           upd ∈ default [] (body_result body) ->
           upd_update_id upd = Some i -> i < offset.
Proof.
  intros W R cfg state state' s s1 s' n body Hprior Hpoll Hrun.
  assert (BOT_TOKEN cfg <> []) as Htoken.
  { intros E. unfold tg_api in Hpoll. by rewrite E in Hpoll. }
  exists (batch_max n (default [] (body_result body)) + 1).
  assert (dict_get_default state' K_LAST_UPDATE_ID (VInt 0)
          = VInt (batch_max n (default [] (body_result body)))) as Hnext.
  { rewrite (process_polled cfg state s s1 n body Hprior Hpoll) in Hrun.
    destruct (default [] (body_result body)) as [|upd rest].
    - by injection Hrun as <- _.
    - destruct (handle_updates_outcome cfg (upd :: rest) n s1)
        as [[s2 Hm]|(e & s2 & Hm & _)]; rewrite Hm in Hrun; [|done].
      injection Hrun as <- _. unfold dict_get_default.
      by rewrite lookup_insert_eq. }
  split; [|split].
  - intros s2. by apply process_first_request.
  - pose proof (batch_max_ge n (default [] (body_result body))). lia.
  - intros upd i Hin Hid.
    pose proof (batch_max_upper n _ upd i Hin Hid). lia.
Qed.

Lemma processed_updates_not_polled_again_witness :
  exists offset,
    (exists l o,
       http_log (snd (process_incoming_commands (Fake.config (u "42"))
                        {[ K_LAST_UPDATE_ID := VInt 7 ]}
                        (Fake.start (Fake.site []))))
       = l ++ Post (api_url (Fake.config (u "42")) (u "getUpdates"))
                   (GetUpdates offset 0) o :: [])
    /\ 7 < offset.
Proof.
  set (cfg := Fake.config (u "42")).
  set (batch := [Fake.bare_update 5; Fake.bare_update 3; Fake.bare_update 7]).
  set (s := Fake.start
              (Fake.with_posts [Fake.ok_response (Some batch)] (Fake.site []))).
  set (state' := {[ K_LAST_UPDATE_ID := VInt 7 ]} : gmap pystr value).
  assert (dict_get_default ∅ K_LAST_UPDATE_ID (VInt 0) = VInt 0) as Hprior
    by reflexivity.
  assert (tg_api cfg (u "getUpdates") (GetUpdates (0 + 1) 0) s
          = (Ret {| body_result := Some batch |},
             snd (tg_api cfg (u "getUpdates") (GetUpdates (0 + 1) 0) s)))
    as Hpoll by (vm_compute; reflexivity).
  assert (process_incoming_commands cfg ∅ s
          = (Ret state', snd (process_incoming_commands cfg ∅ s))) as Hrun
    by (vm_compute; reflexivity).
  destruct (processed_updates_not_polled_again Fake.t Fake.runtime cfg
              ∅ state' s _ _ 0 _ Hprior Hpoll Hrun)
    as (offset & Hnext & _ & Habove).
  exists offset. split.
  - exact (Hnext (Fake.start (Fake.site []))).
  - apply (Habove (Fake.bare_update 7)); [|reflexivity].
    right. right. left.
Defined.

(** ** White space around a command *)

Lemma lstrip_spaces ws x :
  Forall (fun c => Unicode.is_space c = true) ws ->
  lstrip (ws ++ x) = lstrip x.
Proof.
  induction 1 as [|c ws Hc _ IH]; [done|]. simpl. by rewrite Hc.
Qed.

Lemma lstrip_app t x : lstrip t <> [] -> lstrip (t ++ x) = lstrip t ++ x.
Proof.
  induction t as [|c t IH]; [done|]. simpl.
  destruct (Unicode.is_space c); [exact IH|done].
Qed.

Lemma lstrip_nil_spaces t :
  lstrip t = [] -> Forall (fun c => Unicode.is_space c = true) t.
Proof.
  induction t as [|c t IH]; [by constructor|]. simpl.
  destruct (Unicode.is_space c) eqn:Hc; [|done].
  intros Ht. constructor; [done|by apply IH].
Qed.

Lemma strip_pad ws t ws' :
  Forall (fun c => Unicode.is_space c = true) ws ->
  Forall (fun c => Unicode.is_space c = true) ws' ->
  strip (ws ++ t ++ ws') = strip t.
Proof.
  intros Hws Hws'. unfold strip. rewrite (lstrip_spaces ws _ Hws).
  assert (Forall (fun c => Unicode.is_space c = true) (rev ws')) as Hrev
    by (by apply Forall_rev).
  destruct (lstrip t) as [|c r] eqn:Ht.
  - apply lstrip_nil_spaces in Ht.
    assert (lstrip (t ++ ws') = []) as ->; [|done].
    rewrite (lstrip_spaces t ws' Ht).
    rewrite <- (app_nil_r ws'). by rewrite (lstrip_spaces ws' [] Hws').
  - rewrite lstrip_app by (by rewrite Ht). rewrite Ht.
    by rewrite rev_app_distr, (lstrip_spaces (rev ws') _ Hrev).
Qed.

(** X16. White space before and after the text of a message does
    not change what the command processor does with it; and a text of
    white space only is dropped without a reply. *)
Theorem padding_does_not_matter :
  forall (W : Type) (R : Runtime W) (cfg : Config) id chat text ws ws'
         (s : sys W),
    Forall (fun c => Unicode.is_space c = true) ws ->
    Forall (fun c => Unicode.is_space c = true) ws' ->
    handle_update cfg
      {| upd_update_id := id;
         upd_message := Some {| msg_chat_id := chat;
                                msg_text := Some (ws ++ text ++ ws') |} |} s
    = handle_update cfg
        {| upd_update_id := id;
           upd_message := Some {| msg_chat_id := chat;
                                  msg_text := Some text |} |} s
    /\ handle_update cfg
         {| upd_update_id := id;
            upd_message := Some {| msg_chat_id := chat;
                                   msg_text := Some ws |} |} s
       = (Ret tt, s).
Proof.
  intros W R cfg id chat text ws ws' s Hws Hws'. unfold handle_update. simpl.
  split.
  - by rewrite (strip_pad ws text ws' Hws Hws').
  - assert (strip ws = []) as ->; [|done].
    assert (strip ws = strip (ws ++ [] ++ [])) as ->
      by (simpl; by rewrite app_nil_r).
    by rewrite (strip_pad ws [] [] Hws (Forall_nil_2 _)).
Qed.

Lemma padding_does_not_matter_witness :
  handle_update (Fake.config (u "42"))
    (Fake.text_update 3 77 "  /check ")
    (Fake.start (Fake.with_posts [Fake.ok_response None] (Fake.site [])))
  = handle_update (Fake.config (u "42"))
      (Fake.text_update 3 77 "/check")
      (Fake.start (Fake.with_posts [Fake.ok_response None] (Fake.site []))).
Proof.
  assert (Forall (fun c => Unicode.is_space c = true) (u "  ")) as Hws
    by (repeat constructor).
  assert (Forall (fun c => Unicode.is_space c = true) (u " ")) as Hws'
    by (repeat constructor).
  exact (proj1 (padding_does_not_matter Fake.t Fake.runtime
                  (Fake.config (u "42")) (Some 3) 77 (u "/check")
                  (u "  ") (u " ") _ Hws Hws')).
Defined.
